(** * Simple Lap-Time Recorder: the timer model of [symple_lap-time_recorder.py]

    The program keeps four fields ([start_time], [is_running], [elapsed_time],
    [lap_times]) on a [LapTimerApp] object and mutates them from Qt callbacks.
    The embedding below passes that state explicitly.  Clock readings
    ([time.time()], [datetime.now()]) and dialog results are inputs of the
    callbacks; message boxes, the console and the file written are outputs.

    Times are Python floats, that is IEEE binary64 numbers: they are modelled
    by Rocq's primitive floats, which compute with the same rounding.  The
    one Python [int] that flows through the arithmetic is the literal [0]
    stored in [elapsed_time] at start and at reset; every operation the
    program applies to it (subtraction from a float, [//], [%], the ['f']
    format) gives the result it gives on the float zero, which represents it
    here. *)

From Stdlib Require Import ZArith Floats String Ascii List Bool Lia.
Import ListNotations.

Set Warnings "-inexact-float".

Local Open Scope string_scope.

(** ** The Python runtime operations the program uses *)

Module Py.

(** An exception, with the text [str(e)] gives. *)
Inductive exn : Type :=
| ValueError (msg : string)
| OverflowError (msg : string)
| OSError (msg : string).

Definition str_exn (e : exn) : string :=
  match e with
  | ValueError m => m
  | OverflowError m => m
  | OSError m => m
  end.

Inductive result (A : Type) : Type :=
| Ok (a : A)
| Raise (e : exn).

Arguments Ok {A} a.
Arguments Raise {A} e.

(** *** Float arithmetic beyond the primitive operations *)

(** An integer of magnitude below 2^53 as a float (exact). *)
Definition float_of_Z (n : Z) : float :=
  let a := PrimFloat.of_uint63 (Uint63Axioms.of_Z (Z.abs n)) in
  if (n <? 0)%Z then PrimFloat.opp a else a.

(** C's [fmod]: the exact remainder of [x / y] truncated toward zero, with
    the sign of [x].  Both operands are brought to the common exponent
    [min ex ey], where the remainder is a remainder of integers. *)
Definition fmod (x y : float) : float :=
  match Prim2SF x, Prim2SF y with
  | S754_nan, _ | _, S754_nan => nan
  | S754_infinity _, _ => nan
  | _, S754_zero _ => nan
  | _, S754_infinity _ => x
  | S754_zero _, _ => x
  | S754_finite sx mx ex, S754_finite _ my ey =>
      let e := Z.min ex ey in
      let X := (Z.pos mx * 2 ^ (ex - e))%Z in
      let Y := (Z.pos my * 2 ^ (ey - e))%Z in
      match (X mod Y)%Z with
      | Z.pos r => SF2Prim (S754_finite sx r e)
      | _ => if sx then neg_zero else PrimFloat.zero
      end
  end.

(** C's [floor]. *)
Definition floor (x : float) : float :=
  match Prim2SF x with
  | S754_finite s m e =>
      if (0 <=? e)%Z then x
      else
        let n := ((if s then Z.neg m else Z.pos m) / 2 ^ (- e))%Z in
        if (n =? 0)%Z then PrimFloat.zero else float_of_Z n
  | _ => x
  end.

(** C's [copysign (0.0, y)]. *)
Definition zero_with_sign_of (y : float) : float :=
  if get_sign y then neg_zero else PrimFloat.zero.

(** A float is true in a condition when it is not zero (a NaN is true). *)
Definition float_bool (x : float) : bool := negb (PrimFloat.eqb x 0).

(** [vx % wx] on floats, CPython's [float_rem].  The divisor is the literal
    60 at the program's only use, so the [ZeroDivisionError] of a zero
    divisor is left out. *)
Definition float_rem (vx wx : float) : float :=
  let md := fmod vx wx in
  if float_bool md then
    if negb (Bool.eqb (PrimFloat.ltb wx 0) (PrimFloat.ltb md 0))
    then (md + wx)%float else md
  else zero_with_sign_of wx.

(** [vx // wx] on floats, CPython's [_float_div_mod] (quotient part), under
    the same proviso. *)
Definition float_floor_div (vx wx : float) : float :=
  let md := fmod vx wx in
  let dv := ((vx - md) / wx)%float in
  let dv :=
    if float_bool md then
      if negb (Bool.eqb (PrimFloat.ltb wx 0) (PrimFloat.ltb md 0))
      then (dv - 1)%float else dv
    else dv in
  if float_bool dv then
    let fl := floor dv in
    if PrimFloat.ltb 0.5 (dv - fl) then (fl + 1)%float else fl
  else zero_with_sign_of (vx / wx)%float.

(** [int(x)] on a float: truncation toward zero, an exception on NaN and on
    the infinities. *)
Definition int_of_float (x : float) : result Z :=
  match Prim2SF x with
  | S754_nan => Raise (ValueError "cannot convert float NaN to integer")
  | S754_infinity _ =>
      Raise (OverflowError "cannot convert float infinity to integer")
  | S754_zero _ => Ok 0%Z
  | S754_finite s m e =>
      let a := if (0 <=? e)%Z then (Z.pos m * 2 ^ e)%Z
               else (Z.pos m / 2 ^ (- e))%Z in
      Ok (if s then (- a)%Z else a)
  end.

(** *** Format specifications *)

Definition digit (n : Z) : ascii := ascii_of_nat (48 + Z.to_nat (n mod 10)).

(** The [p] low-order decimal digits of [n], most significant first. *)
Fixpoint fixed_digits (p : nat) (n : Z) : string :=
  match p with
  | O => ""
  | S p' => fixed_digits p' (n / 10) ++ String (digit n) ""
  end.

(** The number of decimal digits of [n]; the fuel bounds the digits after
    the first, and the number of bits of [n] is enough. *)
Fixpoint count_digits (fuel : nat) (n : Z) : nat :=
  match fuel with
  | O => 1
  | S f => if (n <? 10)%Z then 1 else S (count_digits f (n / 10))
  end.

(** The decimal digits of a natural number, without leading zeros. *)
Definition decimal (n : Z) : string :=
  fixed_digits (count_digits (Z.to_nat (Z.log2 n)) n) n.

Fixpoint zeros (k : nat) : string :=
  match k with
  | O => ""
  | S k' => String "0" (zeros k')
  end.

(** Sign-aware zero padding (the [0] flag): the zeros go between the sign
    and the digits. *)
Definition zero_pad (width : nat) (negative : bool) (body : string) : string :=
  let sign := if negative then "-" else "" in
  sign ++ zeros (width - String.length sign - String.length body) ++ body.

(** [format(n, '0{width}d')] on an int. *)
Definition format_d (width : nat) (n : Z) : string :=
  zero_pad width (n <? 0)%Z (decimal (Z.abs n)).

(** The integer nearest to [m * 2^e], ties to even. *)
Definition round_half_even (m e : Z) : Z :=
  if (0 <=? e)%Z then (m * 2 ^ e)%Z
  else
    let den := (2 ^ (- e))%Z in
    let q := (m / den)%Z in
    let r := (m mod den)%Z in
    match (2 * r ?= den)%Z with
    | Lt => q
    | Gt => (q + 1)%Z
    | Eq => if Z.even q then q else (q + 1)%Z
    end.

(** A count [n] of units of [10^-prec] written in positional notation. *)
Definition fixed_point (prec : nat) (n : Z) : string :=
  decimal (n / 10 ^ Z.of_nat prec) ++ "." ++ fixed_digits prec n.

(** [format(x, '0{width}.{prec}f')] on a float ([width = 0] for the
    specification ['.{prec}f']): the exact binary value is rounded to [prec]
    decimals, ties to even. *)
Definition format_f (width prec : nat) (x : float) : string :=
  match Prim2SF x with
  | S754_nan => zero_pad width false "nan"
  | S754_infinity s => zero_pad width s "inf"
  | S754_zero s => zero_pad width s (fixed_point prec 0)
  | S754_finite s m e =>
      zero_pad width s
        (fixed_point prec (round_half_even (Z.pos m * 10 ^ Z.of_nat prec) e))
  end.

(** [str(n)] on an int. *)
Definition str_int (n : Z) : string :=
  (if (n <? 0)%Z then "-" else "") ++ decimal (Z.abs n).

(** *** Strings *)

(** A text of the program (a Python [str]) is held as its UTF-8 encoding,
    the bytes the file receives; a text with a lone surrogate has none and
    is outside this model.  The characters [str.strip()] removes are
    those for which [str.isspace()] holds: U+0009 to U+000D, U+001C to
    U+0020, U+0085, U+00A0, U+1680, U+2000 to U+200A, U+2028, U+2029, U+202F,
    U+205F and U+3000.  They are recognised here by their encodings of one,
    two and three bytes. *)
Definition is_space (c : ascii) : bool :=
  let n := nat_of_ascii c in
  ((9 <=? n) && (n <=? 13) || (28 <=? n) && (n <=? 32))%nat.

Definition is_space2 (c1 c2 : ascii) : bool :=
  let n1 := nat_of_ascii c1 in
  let n2 := nat_of_ascii c2 in
  ((n1 =? 194) && ((n2 =? 133) || (n2 =? 160)))%nat.

Definition is_space3 (c1 c2 c3 : ascii) : bool :=
  let n1 := nat_of_ascii c1 in
  let n2 := nat_of_ascii c2 in
  let n3 := nat_of_ascii c3 in
  ((n1 =? 225) && (n2 =? 154) && (n3 =? 128)
   || (n1 =? 226) && (n2 =? 128)
      && ((128 <=? n3) && (n3 <=? 138)
          || (n3 =? 168) || (n3 =? 169) || (n3 =? 175))
   || (n1 =? 226) && (n2 =? 129) && (n3 =? 159)
   || (n1 =? 227) && (n2 =? 128) && (n3 =? 128))%nat.

(** A text of whitespace characters only ([""] is one). *)
Fixpoint all_space (s : string) : bool :=
  match s with
  | EmptyString => true
  | String c1 r1 =>
      if is_space c1 then all_space r1
      else
        match r1 with
        | EmptyString => false
        | String c2 r2 =>
            if is_space2 c1 c2 then all_space r2
            else
              match r2 with
              | EmptyString => false
              | String c3 r3 => is_space3 c1 c2 c3 && all_space r3
              end
        end
  end.

(** [s.lstrip()]: the text from its first character that is not
    whitespace. *)
Fixpoint lstrip (s : string) : string :=
  match s with
  | EmptyString => s
  | String c1 r1 =>
      if is_space c1 then lstrip r1
      else
        match r1 with
        | EmptyString => s
        | String c2 r2 =>
            if is_space2 c1 c2 then lstrip r2
            else
              match r2 with
              | EmptyString => s
              | String c3 r3 => if is_space3 c1 c2 c3 then lstrip r3 else s
              end
        end
  end.

(** [s.rstrip()]: the text up to the point after which only whitespace
    follows. *)
Fixpoint rstrip (s : string) : string :=
  match s with
  | EmptyString => EmptyString
  | String c r => if all_space (String c r) then EmptyString
                  else String c (rstrip r)
  end.

Definition strip (s : string) : string := rstrip (lstrip s).

(** The slice [s[:-k]]. *)
Definition drop_last (k : nat) (s : string) : string :=
  substring 0 (String.length s - k) s.

(** *** [datetime] *)

Record datetime : Type := mkDatetime {
  year : Z; month : Z; day : Z;
  hour : Z; minute : Z; second : Z; microsecond : Z
}.

(** [strftime] for the three formats of the program.  [%Y] is the year in
    four digits, [%f] the microsecond in six, the other fields have two. *)
Definition strftime_HMS (d : datetime) : string :=
  format_d 2 (hour d) ++ ":" ++ format_d 2 (minute d) ++ ":"
  ++ format_d 2 (second d).

Definition strftime_Ymd_HMS (d : datetime) : string :=
  format_d 4 (year d) ++ "-" ++ format_d 2 (month d) ++ "-"
  ++ format_d 2 (day d) ++ " " ++ strftime_HMS d.

Definition strftime_Ymd_HMS_f (d : datetime) : string :=
  strftime_Ymd_HMS d ++ "." ++ format_d 6 (microsecond d).

(** *** [csv.writer] with the default (excel) dialect *)

Inductive cell : Type :=
| CStr (s : string)
| CInt (n : Z).

Definition cell_text (c : cell) : string :=
  match c with
  | CStr s => s
  | CInt n => str_int n
  end.

Definition dquote : ascii := ascii_of_nat 34.
Definition CR : ascii := ascii_of_nat 13.
Definition LF : ascii := ascii_of_nat 10.
Definition lineterminator : string := String CR (String LF "").

(** A field is quoted when it holds the delimiter, the quote character or a
    character of the line terminator. *)
Definition special (c : ascii) : bool :=
  Ascii.eqb c "," || Ascii.eqb c dquote || Ascii.eqb c CR || Ascii.eqb c LF.

Fixpoint needs_quotes (s : string) : bool :=
  match s with
  | String c r => special c || needs_quotes r
  | EmptyString => false
  end.

(** Quote characters inside a field are doubled. *)
Fixpoint double_quotes (s : string) : string :=
  match s with
  | String c r =>
      if Ascii.eqb c dquote then String c (String c (double_quotes r))
      else String c (double_quotes r)
  | EmptyString => EmptyString
  end.

Definition csv_field (s : string) : string :=
  if needs_quotes s
  then String dquote (double_quotes s ++ String dquote "")
  else s.

Fixpoint join (sep : string) (l : list string) : string :=
  match l with
  | [] => ""
  | [x] => x
  | x :: r => x ++ sep ++ join sep r
  end.

(** The text one [writerow] call writes.  A row whose only field is empty
    is written as a pair of quotes. *)
Definition csv_record (row : list cell) : string :=
  let body := join "," (map (fun c => csv_field (cell_text c)) row) in
  (match row, body with
   | _ :: _, EmptyString => String dquote (String dquote "")
   | _, _ => body
   end) ++ lineterminator.

(** *** Writing to an open text file

    A computation that appends to the text the file is to receive and may
    raise while it builds a row; what was written before the exception stays
    in the text.  An error of the operating system in one of the writes is
    not raised here: it is an input of [save_results], which takes from the
    text the bytes that had reached the file. *)
Definition writer (A : Type) : Type := string -> result A * string.

Definition wret {A} (a : A) : writer A := fun buf => (Ok a, buf).

Definition wbind {A B} (c : writer A) (k : A -> writer B) : writer B :=
  fun buf =>
    match c buf with
    | (Ok a, buf') => k a buf'
    | (Raise e, buf') => (Raise e, buf')
    end.

Definition wlift {A} (r : result A) : writer A := fun buf => (r, buf).

Definition writerow (row : list cell) : writer unit :=
  fun buf => (Ok tt, buf ++ csv_record row).

Fixpoint for_each {A} (l : list A) (body : A -> writer unit) : writer unit :=
  match l with
  | [] => wret tt
  | a :: r => wbind (body a) (fun _ => for_each r body)
  end.

End Py.

(** ** The program *)

Module LapTimer.
Import Py.

(** One entry of [self.lap_times] (the dict built at source lines 276-281). *)
Record lap_data : Type := mkLap {
  number : Z;
  lap_time : float;
  total_time : float;
  timestamp : datetime
}.

(** The fields of the [LapTimerApp] object the callbacks read and write: the
    timer state of [__init__] (source lines 34-37) and the contents of the
    widgets the callbacks update. *)
Record app : Type := mkApp {
  start_time : option float;           (* [None] until the first start *)
  is_running : bool;
  elapsed_time : float;
  lap_times : list lap_data;
  time_label : string;                 (* text of the time display *)
  time_label_color : string;           (* colour of its style sheet *)
  status_label : string;
  lap_text : list string;              (* paragraphs of the lap display *)
  save_button_enabled : bool
}.

(** The timer state proper. *)
Definition timer_state (s : app)
  : option float * bool * float * list lap_data :=
  (start_time s, is_running s, elapsed_time s, lap_times s).

(** The object after [__init__]. *)
Definition init : app :=
  {| start_time := None;
     is_running := false;
     elapsed_time := 0;
     lap_times := [];
     time_label := "00:00.00";
     time_label_color := "#333333";
     status_label := "Press Space to Start";
     lap_text := [];
     save_button_enabled := false |}.

(** [format_time] (source lines 306-310). *)
Definition format_time (seconds : float) : result string :=
  match int_of_float (float_floor_div seconds 60) with
  | Raise e => Raise e
  | Ok minutes =>
      let remaining_seconds := float_rem seconds 60 in
      Ok (format_d 2 minutes ++ ":" ++ format_f 5 2 remaining_seconds)
  end.

(** [format_time] on a Python [int], as the literal [0] of [elapsed_time]:
    [//] and [%] are the floor division and its remainder on integers, and
    the ['f'] format converts its argument to a float.  On the integer 0 the
    result is that of [format_time] on the float zero. *)
Definition format_time_int (seconds : Z) : string :=
  let minutes := (seconds / 60)%Z in
  let remaining_seconds := (seconds mod 60)%Z in
  format_d 2 minutes ++ ":" ++ format_f 5 2 (float_of_Z remaining_seconds).

(** [toggle_timer] (source lines 217-241); [now] is [time.time()]. *)
Definition toggle_timer (now : float) (s : app) : app :=
  if negb (is_running s) then
    {| start_time := Some (now - elapsed_time s)%float;
       is_running := true;
       elapsed_time := elapsed_time s;
       lap_times := lap_times s;
       time_label := time_label s;
       time_label_color := "#007AFF";
       status_label := "Running - Press Space to Stop";
       lap_text := lap_text s;
       save_button_enabled := save_button_enabled s |}
  else
    {| start_time := start_time s;
       is_running := false;
       elapsed_time := elapsed_time s;
       lap_times := lap_times s;
       time_label := time_label s;
       time_label_color := "#FF6B6B";
       status_label := "Stopped - Press Space to Resume";
       lap_text := lap_text s;
       save_button_enabled := save_button_enabled s |}.

(** [reset_timer] (source lines 243-262). *)
Definition reset_timer (s : app) : app :=
  {| start_time := None;
     is_running := false;
     elapsed_time := 0;
     lap_times := [];
     time_label := time_label s;
     time_label_color := "#333333";
     status_label := "Press Space to Start";
     lap_text := [];
     save_button_enabled := false |}.

(** [add_lap_to_display] (source lines 287-304).  When [format_time] raises,
    the exception leaves the callback before any widget is touched. *)
Definition add_lap_to_display (lap : lap_data) (s : app) : app :=
  match format_time (lap_time lap), format_time (total_time lap) with
  | Ok lap_time_str, Ok total_time_str =>
      let timestamp_str := strftime_HMS (timestamp lap) in
      let lap_info :=
        "[" ++ str_int (number lap) ++ "] " ++ lap_time_str
        ++ " (Total: " ++ total_time_str ++ ") - " ++ timestamp_str in
      {| start_time := start_time s;
         is_running := is_running s;
         elapsed_time := elapsed_time s;
         lap_times := lap_times s;
         time_label := time_label s;
         time_label_color := time_label_color s;
         status_label := status_label s;
         lap_text := lap_text s ++ [lap_info];
         save_button_enabled := true |}
  | _, _ => s
  end.

(** [record_lap] (source lines 264-285); [wall] is [datetime.now()]. *)
Definition record_lap (lap_number : Z) (wall : datetime) (s : app) : app :=
  if is_running s then
    let current_time := elapsed_time s in
    let lap_time :=
      match lap_times s with
      | [] => current_time
      | _ :: _ =>
          (current_time - total_time (last (lap_times s) (mkLap 0 0 0 wall)))%float
      end in
    let lap :=
      {| number := lap_number;
         lap_time := lap_time;
         total_time := current_time;
         timestamp := wall |} in
    add_lap_to_display lap
      {| start_time := start_time s;
         is_running := is_running s;
         elapsed_time := elapsed_time s;
         lap_times := lap_times s ++ [lap];
         time_label := time_label s;
         time_label_color := time_label_color s;
         status_label := status_label s;
         lap_text := lap_text s;
         save_button_enabled := save_button_enabled s |}
  else s.

(** [update_timer] (source lines 370-377), the callback of the 100 ms
    refresh; [now] is [time.time()].  The condition [self.start_time] is
    false on [None] and on a float that is zero.  When [format_time] raises,
    the label keeps its text; the assignment to [elapsed_time] has
    happened. *)
Definition update_timer (now : float) (s : app) : app :=
  let elapsed :=
    match start_time s with
    | Some t =>
        if is_running s && float_bool t then (now - t)%float
        else elapsed_time s
    | None => elapsed_time s
    end in
  {| start_time := start_time s;
     is_running := is_running s;
     elapsed_time := elapsed;
     lap_times := lap_times s;
     time_label :=
       match format_time elapsed with
       | Ok time_str => time_str
       | Raise _ => time_label s
       end;
     time_label_color := time_label_color s;
     status_label := status_label s;
     lap_text := lap_text s;
     save_button_enabled := save_button_enabled s |}.

(** *** Saving *)

(** What [save_results] does to the world outside the object. *)
Inductive effect : Type :=
| Information (title text : string)     (* [QMessageBox.information] *)
| Critical (title text : string)        (* [QMessageBox.critical] *)
| FileWritten (path contents : string)  (* a file opened with ['w'] and closed *)
| Print (text : string).

(** What [save_results] reads from the world: the answers of the two
    dialogs (the text and the [ok] flag of the first, the path of the
    second, empty on cancel), the clock at the [Save Date] row, whether
    [open] fails, and whether the operating system fails later: an error
    raised by one of the writes of [csv.writer] or by the close that ends
    the [with] block, together with the number of bytes that had reached
    the file by then.  The clock reading that only fills the default text of
    the first dialog is not an input of its own. *)
Record save_env : Type := mkSaveEnv {
  session_name_answer : string * bool;   (* [QInputDialog.getText] *)
  file_path_answer : string;             (* [QFileDialog.getSaveFileName] *)
  save_date : datetime;
  open_error : option exn;
  write_error : option (nat * exn)
}.

Definition csv_header : list cell :=
  [CStr "Lap Number"; CStr "Lap Time (sec)"; CStr "Lap Time (display)";
   CStr "Total Time (sec)"; CStr "Total Time (display)"; CStr "Timestamp"].

(** The row of one lap (source lines 355-362): the list is built, left to
    right, before [writerow] is called. *)
Definition write_lap (lap : lap_data) : writer unit :=
  wbind (wlift (format_time (lap_time lap))) (fun lap_display =>
  wbind (wlift (format_time (total_time lap))) (fun total_display =>
  writerow
    [CInt (number lap);
     CStr (format_f 0 3 (lap_time lap));
     CStr lap_display;
     CStr (format_f 0 3 (total_time lap));
     CStr total_display;
     CStr (drop_last 3 (strftime_Ymd_HMS_f (timestamp lap)))])).

(** The body of the [with] block (source lines 340-362). *)
Definition write_session (s : app) (name : string) (date : datetime)
  : writer unit :=
  wbind (writerow [CStr "# Session Information"]) (fun _ =>
  wbind (writerow [CStr "Session Name"; CStr name]) (fun _ =>
  wbind (writerow [CStr "Save Date"; CStr (strftime_Ymd_HMS date)]) (fun _ =>
  wbind (writerow [CStr "Total Laps";
                   CInt (Z.of_nat (List.length (lap_times s)))]) (fun _ =>
  wbind (wlift (format_time (elapsed_time s))) (fun total =>
  wbind (writerow [CStr "Total Time"; CStr total]) (fun _ =>
  wbind (writerow []) (fun _ =>
  wbind (writerow csv_header) (fun _ =>
  for_each (lap_times s) write_lap)))))))).

(** [save_results] (source lines 312-368).  The object is returned as the
    other callbacks return it.  Every exception raised inside the [try]
    reaches the same [except] clause: one raised by [open], one raised by
    [format_time] while a row is built (the rows written before it are
    flushed when the [with] block closes the file), and one raised by the
    operating system while the rows are written or the file is closed, which
    leaves in the file the bytes that had reached it. *)
Definition save_results (env : save_env) (s : app) : app * list effect :=
  match lap_times s with
  | [] => (s, [Information "Information" "No lap times to save."])
  | _ :: _ =>
      let (session_name, ok) := session_name_answer env in
      match negb ok || (String.length (strip session_name) =? 0)%nat with
      | true => (s, [])
      | false =>
          let file_path := file_path_answer env in
          match (String.length file_path =? 0)%nat with
          | true => (s, [])
          | false =>
              let failed e :=
                Critical "Save Error"
                  ("Error occurred while saving file:" ++ String LF ""
                   ++ str_exn e) in
              match open_error env with
              | Some e => (s, [failed e])
              | None =>
                  match write_session s (strip session_name) (save_date env) "",
                        write_error env
                  with
                  | (_, contents), Some (flushed, e) =>
                      (s, [FileWritten file_path (substring 0 flushed contents);
                           failed e])
                  | (Ok _, contents), None =>
                      let saved := "Results saved to:" ++ String LF ""
                                   ++ file_path in
                      (s, [FileWritten file_path contents;
                           Information "Save Complete" saved;
                           Print ("Save Complete! " ++ " " ++ saved
                                  ++ String LF "")])
                  | (Raise e, contents), None =>
                      (s, [FileWritten file_path contents; failed e])
                  end
              end
          end
      end
  end.

(** *** Runs *)

(** The two clocks a callback may read. *)
Record clock : Type := mkClock {
  time_time : float;        (* [time.time()] *)
  datetime_now : datetime   (* [datetime.now()] *)
}.

(** The callbacks that change the timer: the space key, the digit keys, the
    escape key and the refresh timer. *)
Inductive event : Type :=
| Toggle
| Lap (lap_number : Z)
| Reset
| Tick.

Definition step (c : clock) (e : event) (s : app) : app :=
  match e with
  | Toggle => toggle_timer (time_time c) s
  | Lap n => record_lap n (datetime_now c) s
  | Reset => reset_timer s
  | Tick => update_timer (time_time c) s
  end.

(** The events of a session in the order the event loop delivers them. *)
Fixpoint run (l : list (clock * event)) (s : app) : app :=
  match l with
  | [] => s
  | (c, e) :: r => run r (step c e s)
  end.

End LapTimer.

(** ** Notions used in the statements *)

Import Py LapTimer.

Local Open Scope float_scope.

(** *** Lap records *)

(** The invariant of [lap_times]: the first record's [lap_time] is its
    [total_time]; every later record's [lap_time] is the float difference
    between its [total_time] and the [total_time] before it, which is not
    above its own. *)
Definition consistent_laps (laps : list lap_data) : Prop :=
  (forall a, nth_error laps 0 = Some a -> lap_time a = total_time a) /\
  (forall i a b,
      nth_error laps i = Some a -> nth_error laps (S i) = Some b ->
      lap_time b = total_time b - total_time a /\
      PrimFloat.leb (total_time a) (total_time b) = true).

(** The elapsed time does not decrease from one recorded lap to the next:
    whenever a run reaches a [record_lap] that takes effect, the elapsed time
    it reads is at least the [total_time] of the last record. *)
Fixpoint elapsed_nondecreasing (l : list (clock * event)) (s : app) : Prop :=
  match l with
  | [] => True
  | (c, e) :: r =>
      match e with
      | Lap _ =>
          is_running s = true ->
          forall a, nth_error (lap_times s) (List.length (lap_times s) - 1)
                    = Some a ->
                    PrimFloat.leb (total_time a) (elapsed_time s) = true
      | _ => True
      end /\ elapsed_nondecreasing r (step c e s)
  end.

(** Python's [sum] over floats: additions from the left, starting at 0. *)
Definition sum_floats (l : list float) : float :=
  fold_left PrimFloat.add l 0.

(** *** Refresh ticks *)

Definition is_tick (e : event) : bool :=
  match e with
  | Tick => true
  | _ => false
  end.

(** A run with its refresh ticks removed. *)
Definition without_ticks (l : list (clock * event)) : list (clock * event) :=
  filter (fun ce => negb (is_tick (snd ce))) l.

(** Every [toggle_timer] and [record_lap] of the run finds the stored
    elapsed time up to date: a refresh at the same clock reading would store
    the value that is there. *)
Fixpoint up_to_date (l : list (clock * event)) (s : app) : Prop :=
  match l with
  | [] => True
  | (c, e) :: r =>
      match e with
      | Toggle | Lap _ =>
          elapsed_time (update_timer (time_time c) s) = elapsed_time s
      | _ => True
      end /\ up_to_date r (step c e s)
  end.

(** A run with a refresh put before each of its other events. *)
Fixpoint refresh_each (l : list (clock * event)) : list (clock * event) :=
  match l with
  | [] => []
  | (c, e) :: r => (c, Tick) :: (c, e) :: refresh_each r
  end.

(** Two objects a refresh makes equal as timers: they have the same start
    reference, running flag and laps, and any refresh stores the same
    elapsed time in both. *)
Definition agree_after_refresh (s1 s2 : app) : Prop :=
  start_time s1 = start_time s2 /\
  is_running s1 = is_running s2 /\
  lap_times s1 = lap_times s2 /\
  forall now,
    elapsed_time (update_timer now s1) = elapsed_time (update_timer now s2).

(** The refresh ticks of a run at the given clock readings. *)
Definition ticks (nows : list float) : list (clock * event) :=
  map (fun now => (mkClock now (mkDatetime 0 0 0 0 0 0 0), Tick)) nows.

(** *** Truncating display, after the specification's words

    The specification describes [format_duration] as truncating the
    seconds field to hundredths.  This is that reading, for comparison with
    [format_time]: it differs from it in the rounding of the remainder
    only. *)
Definition truncate (m e : Z) : Z :=
  if (0 <=? e)%Z then (m * 2 ^ e)%Z else (m / 2 ^ (- e))%Z.

Definition format_f_truncating (width prec : nat) (x : float) : string :=
  match Prim2SF x with
  | S754_nan => zero_pad width false "nan"
  | S754_infinity s => zero_pad width s "inf"
  | S754_zero s => zero_pad width s (fixed_point prec 0)
  | S754_finite s m e =>
      zero_pad width s
        (fixed_point prec (truncate (Z.pos m * 10 ^ Z.of_nat prec) e))
  end.

Definition format_duration_truncating (seconds : float) : result string :=
  match int_of_float (float_floor_div seconds 60) with
  | Raise e => Raise e
  | Ok minutes =>
      Ok (format_d 2 minutes ++ ":"
          ++ format_f_truncating 5 2 (float_rem seconds 60))
  end.

(** The exact value [m * 2^e] of a float that is zero or positive. *)
Definition nonneg_value (x : float) : option (Z * Z) :=
  match Prim2SF x with
  | S754_zero false => Some (0%Z, 0%Z)
  | S754_finite false m e => Some (Z.pos m, e)
  | _ => None
  end.

(** [n] is the integer nearest to [m * 2^e], the even one of the two when
    [m * 2^e] lies half way between two integers. *)
Definition nearest_even (n m e : Z) : Prop :=
  if (0 <=? e)%Z then n = (m * 2 ^ e)%Z
  else
    (2 * Z.abs (n * 2 ^ (- e) - m) < 2 ^ (- e))%Z \/
    ((2 * Z.abs (n * 2 ^ (- e) - m) = 2 ^ (- e))%Z /\ Z.even n = true).

(** *** The exported text *)

Definition is_digit (c : ascii) : bool :=
  let n := nat_of_ascii c in ((48 <=? n) && (n <=? 57))%nat.

Fixpoint all_digits (s : string) : bool :=
  match s with
  | String c r => is_digit c && all_digits r
  | EmptyString => true
  end.

(** A number written with exactly [p] decimal places. *)
Definition has_decimals (p : nat) (s : string) : Prop :=
  exists sign whole frac,
    s = sign ++ whole ++ "." ++ frac /\
    (sign = "" \/ sign = "-")%string /\
    all_digits whole = true /\ whole <> ""%string /\
    all_digits frac = true /\ String.length frac = p.

(** A [datetime] as [datetime.now()] returns it, as far as the rows use
    it. *)
Definition valid_datetime (d : datetime) : Prop :=
  (0 <= microsecond d < 1000000)%Z.

(** What a duration looks like on the display, when it has a display. *)
Definition display (x : float) : string :=
  match format_time x with
  | Ok str => str
  | Raise _ => ""
  end.

Definition displayable (x : float) : Prop :=
  exists str, format_time x = Ok str.

(** A line of the file: the text of a row and the characters CR and LF,
    numbers 13 and 10, that end it. *)
Definition line (s : string) : string :=
  s ++ String (ascii_of_nat 13) (String (ascii_of_nat 10) "").

(** The timestamp of a row: date and time, and the milliseconds in three
    digits. *)
Definition millisecond_stamp (d : datetime) : string :=
  strftime_Ymd_HMS d ++ "." ++ fixed_digits 3 (microsecond d / 1000).

(** The row of a lap, field by field. *)
Definition lap_row (lap : lap_data) : string :=
  str_int (number lap) ++ ","
  ++ format_f 0 3 (lap_time lap) ++ "," ++ display (lap_time lap) ++ ","
  ++ format_f 0 3 (total_time lap) ++ "," ++ display (total_time lap) ++ ","
  ++ millisecond_stamp (timestamp lap).

(** The lines of the file, one after the other. *)
Fixpoint lines (rows : list string) : string :=
  match rows with
  | [] => ""
  | r :: rest => line r ++ lines rest
  end.

(** A text [csv.writer] writes as it is, without quotes. *)
Definition plain (s : string) : Prop := needs_quotes s = false.

(** *** The widgets against the timer *)

(** A lap both of whose durations have a display: [add_lap_to_display]
    reaches the lap display for it. *)
Definition shown (lap : lap_data) : bool :=
  match format_time (lap_time lap), format_time (total_time lap) with
  | Ok _, Ok _ => true
  | _, _ => false
  end.

(** The paragraph of a lap in the lap display. *)
Definition display_line (lap : lap_data) : string :=
  "[" ++ str_int (number lap) ++ "] " ++ display (lap_time lap)
  ++ " (Total: " ++ display (total_time lap) ++ ") - "
  ++ strftime_HMS (timestamp lap).

(** The status text and the colour of the time display that belong to a
    timer state. *)
Definition expected_status (s : app) : string :=
  if is_running s then "Running - Press Space to Stop"
  else match start_time s with
       | None => "Press Space to Start"
       | Some _ => "Stopped - Press Space to Resume"
       end.

Definition expected_color (s : app) : string :=
  if is_running s then "#007AFF"
  else match start_time s with
       | None => "#333333"
       | Some _ => "#FF6B6B"
       end.

(** What holds of the object between two callbacks. *)
Definition consistent_view (s : app) : Prop :=
  (is_running s = true -> start_time s <> None) /\
  status_label s = expected_status s /\
  time_label_color s = expected_color s /\
  lap_text s = map display_line (filter shown (lap_times s)) /\
  save_button_enabled s = existsb shown (lap_times s).

(** Two objects that differ in the text of the time display at most. *)
Definition same_but_time_label (s1 s2 : app) : Prop :=
  timer_state s1 = timer_state s2 /\
  time_label_color s1 = time_label_color s2 /\
  status_label s1 = status_label s2 /\
  lap_text s1 = lap_text s2 /\
  save_button_enabled s1 = save_button_enabled s2.

(** *** Kinds of events and of lap sequences *)

Definition is_reset (e : event) : bool :=
  match e with
  | Reset => true
  | _ => false
  end.

(** The events that read the elapsed time without storing one. *)
Definition is_key (e : event) : bool :=
  match e with
  | Toggle | Lap _ => true
  | _ => false
  end.

(** The part of [consistent_laps] that needs no assumption on the clock. *)
Definition lap_differences (laps : list lap_data) : Prop :=
  (forall a, nth_error laps 0 = Some a -> lap_time a = total_time a) /\
  (forall i a b,
      nth_error laps i = Some a -> nth_error laps (S i) = Some b ->
      lap_time b = total_time b - total_time a).

(** *** Effects of saving *)

Definition is_message (e : effect) : bool :=
  match e with
  | Information _ _ | Critical _ _ => true
  | _ => false
  end.

Definition is_file (e : effect) : bool :=
  match e with
  | FileWritten _ _ => true
  | _ => false
  end.

Definition is_critical (e : effect) : bool :=
  match e with
  | Critical _ _ => true
  | _ => false
  end.


(** The first four rows of the file. *)
Definition header_rows (s : app) (name : string) (date : datetime) : string :=
  line "# Session Information"
  ++ line ("Session Name," ++ csv_field name)
  ++ line ("Save Date," ++ strftime_Ymd_HMS date)
  ++ line ("Total Laps," ++ decimal (Z.of_nat (List.length (lap_times s)))).

(** A session started at clock reading 0, and a whitespace answer to the
    name dialog. *)
Definition epoch_events : list (clock * event) :=
  [(mkClock 0 (mkDatetime 1970 1 1 0 0 0 0), Toggle)].

(** A space, a no-break space (U+00A0) and an ideographic space
    (U+3000). *)
Definition blank_name : string :=
  String " "
    (String (ascii_of_nat 194) (String (ascii_of_nat 160)
       (String (ascii_of_nat 227) (String (ascii_of_nat 128)
          (String (ascii_of_nat 128) ""))))).

Definition blank_name_env : save_env :=
  mkSaveEnv (blank_name, true) "/tmp/laps.csv"%string
    (mkDatetime 2024 1 5 3 5 0 0) None None.

(** *** Sample data

    A clock reading and a session used where a statement is instantiated: a
    start at 100 s, laps at 112.5 s and 130.25 s. *)
Definition sample_wall : datetime := mkDatetime 2024 1 5 3 4 5 6789.

Definition at_time (t : float) : clock := mkClock t sample_wall.

Definition sample_events : list (clock * event) :=
  [(at_time 100, Toggle);
   (at_time 112.5, Tick); (at_time 112.5, Lap 3);
   (at_time 130.25, Tick); (at_time 130.25, Lap 7)].

Definition sample_session : app := run sample_events init.

Definition sample_env : save_env :=
  mkSaveEnv (" morning run ", true)%string "/tmp/laps.csv"%string
    (mkDatetime 2024 1 5 3 5 0 0) None None.

(** The sample session with more refresh ticks. *)
Definition sample_events_busy : list (clock * event) :=
  [(at_time 100, Toggle);
   (at_time 100.1, Tick); (at_time 104, Tick); (at_time 112.5, Tick);
   (at_time 112.5, Lap 3);
   (at_time 120, Tick); (at_time 130.25, Tick); (at_time 130.25, Lap 7)].

(** A lap recorded five seconds after the start, with and without a refresh
    before it. *)
Definition lap_after_refresh : list (clock * event) :=
  [(at_time 100, Toggle); (at_time 105, Tick); (at_time 105, Lap 1)].

Definition lap_without_refresh : list (clock * event) :=
  [(at_time 100, Toggle); (at_time 105, Lap 1)].

(** A start, a refresh and a stop, and then a resume with a refresh at the
    instant of the resume. *)
Definition pause_events : list (clock * event) :=
  [(at_time 0.5, Toggle); (at_time 0.6, Tick); (at_time 0.6, Toggle)].

Definition resume_events : list (clock * event) :=
  [(at_time 10, Toggle); (at_time 10, Tick)].

(** Two laps of a session started at clock reading 0.1. *)
Definition uneven_events : list (clock * event) :=
  [(at_time 0.1, Toggle);
   (at_time 0.4, Tick); (at_time 0.4, Lap 1);
   (at_time 2.5, Tick); (at_time 2.5, Lap 2)].

(** ** Properties *)

(** *** Strings and decimal digits *)

Local Close Scope float_scope.

Lemma string_app_assoc :
  forall a b c : string, (a ++ b) ++ c = a ++ (b ++ c).
Proof.
  induction a as [|x a IH]; intros b c; cbn; [reflexivity|].
  rewrite IH. reflexivity.
Qed.

Lemma string_app_nil_r : forall a : string, a ++ "" = a.
Proof.
  induction a as [|x a IH]; cbn; [reflexivity|]. rewrite IH. reflexivity.
Qed.

Lemma string_length_app :
  forall a b : string,
    String.length (a ++ b) = (String.length a + String.length b)%nat.
Proof.
  induction a as [|x a IH]; intros b; cbn; [reflexivity|].
  rewrite IH. reflexivity.
Qed.

Lemma string_app_not_empty :
  forall (a : string) (c : ascii) (r : string), a ++ String c r <> "".
Proof. intros [|x a] c r; discriminate. Qed.

Lemma substring_prefix :
  forall a b : string, substring 0 (String.length a) (a ++ b) = a.
Proof.
  induction a as [|x a IH]; intros b; cbn.
  - destruct b; reflexivity.
  - rewrite IH. reflexivity.
Qed.

Lemma drop_last_app :
  forall (k : nat) (a b : string),
    String.length b = k -> drop_last k (a ++ b) = a.
Proof.
  intros k a b Hk. unfold drop_last. rewrite string_length_app, Hk.
  replace (String.length a + k - k)%nat with (String.length a) by lia.
  apply substring_prefix.
Qed.

Lemma length_zeros : forall k, String.length (zeros k) = k.
Proof. induction k; cbn; congruence. Qed.

Lemma zeros_snoc : forall k, zeros k ++ "0" = String "0" (zeros k).
Proof. induction k; cbn; congruence. Qed.

Lemma length_fixed_digits :
  forall p n, String.length (fixed_digits p n) = p.
Proof.
  induction p as [|p IH]; intros n; cbn; [reflexivity|].
  rewrite string_length_app, IH. cbn. lia.
Qed.

Lemma fixed_digits_zero : forall k, fixed_digits k 0 = zeros k.
Proof.
  induction k as [|k IH]; [reflexivity|].
  cbn [fixed_digits]. change (0 / 10)%Z with 0%Z. rewrite IH.
  apply zeros_snoc.
Qed.

(** A number with at most [c] digits written in [k + c] digits starts with
    [k] zeros. *)
Lemma fixed_digits_small :
  forall c n k,
    (0 <= n < 10 ^ Z.of_nat c)%Z ->
    fixed_digits (k + c) n = zeros k ++ fixed_digits c n.
Proof.
  induction c as [|c IH]; intros n k Hn.
  - assert (n = 0%Z) by (cbn in Hn; lia). subst n.
    rewrite Nat.add_0_r, fixed_digits_zero. cbn. symmetry.
    apply string_app_nil_r.
  - rewrite Nat.add_succ_r. cbn [fixed_digits].
    rewrite IH, string_app_assoc; [reflexivity|].
    rewrite Nat2Z.inj_succ, Z.pow_succ_r in Hn by lia.
    split; [apply Z.div_pos; lia|].
    apply Z.div_lt_upper_bound; lia.
Qed.

Lemma fixed_digits_split :
  forall b a n,
    fixed_digits (a + b) n
    = fixed_digits a (n / 10 ^ Z.of_nat b) ++ fixed_digits b n.
Proof.
  induction b as [|b IH]; intros a n.
  - rewrite Nat.add_0_r. cbn [fixed_digits Z.of_nat Z.pow].
    rewrite Z.div_1_r, string_app_nil_r. reflexivity.
  - rewrite Nat.add_succ_r. cbn [fixed_digits].
    rewrite IH, string_app_assoc.
    rewrite Nat2Z.inj_succ, Z.pow_succ_r by lia.
    rewrite Z.div_div by lia. reflexivity.
Qed.

Lemma count_digits_pos : forall f n, (1 <= count_digits f n)%nat.
Proof. intros [|f] n; cbn; [lia|]. destruct (n <? 10)%Z; lia. Qed.

(** With fuel for its bits, [count_digits] counts enough digits... *)
Lemma count_digits_upper :
  forall f n,
    (0 <= n < 2 ^ (Z.of_nat f + 1))%Z ->
    (n < 10 ^ Z.of_nat (count_digits f n))%Z.
Proof.
  induction f as [|f IH]; intros n Hn.
  - cbn in *. lia.
  - cbn [count_digits]. destruct (Z.ltb_spec n 10) as [Hlt|Hge].
    + cbn. lia.
    + rewrite Nat2Z.inj_succ, Z.pow_succ_r by lia.
      assert (Hdiv : (n / 10 < 10 ^ Z.of_nat (count_digits f (n / 10)))%Z).
      { apply IH. split; [apply Z.div_pos; lia|].
        apply Z.div_lt_upper_bound; [lia|].
        rewrite Nat2Z.inj_succ in Hn.
        replace (Z.succ (Z.of_nat f) + 1)%Z with (Z.succ (Z.of_nat f + 1))%Z
          in Hn by lia.
        rewrite Z.pow_succ_r in Hn by lia. lia. }
      pose proof (Z.mul_div_le n 10 ltac:(lia)).
      pose proof (Z.mod_pos_bound n 10 ltac:(lia)).
      pose proof (Z.div_mod n 10 ltac:(lia)). lia.
Qed.

(** ... and no more than there are. *)
Lemma count_digits_lower :
  forall f n k,
    (1 <= k < count_digits f n)%nat -> (10 ^ Z.of_nat k <= n)%Z.
Proof.
  induction f as [|f IH]; intros n k Hk.
  - cbn in Hk. lia.
  - cbn [count_digits] in Hk. destruct (Z.ltb_spec n 10) as [Hlt|Hge]; [lia|].
    destruct k as [|k]; [lia|].
    rewrite Nat2Z.inj_succ, Z.pow_succ_r by lia.
    assert (Hdiv : (10 ^ Z.of_nat k <= n / 10)%Z).
    { destruct k as [|k].
      - cbn. apply Z.div_le_lower_bound; lia.
      - apply IH. lia. }
    pose proof (Z.mul_div_le n 10 ltac:(lia)). lia.
Qed.

Lemma log2_fuel :
  forall n, (0 <= n)%Z -> (n < 2 ^ (Z.of_nat (Z.to_nat (Z.log2 n)) + 1))%Z.
Proof.
  intros n Hn. rewrite Z2Nat.id by apply Z.log2_nonneg.
  destruct (Z.eq_dec n 0) as [->|Hnz]; [cbn; lia|].
  pose proof (Z.log2_spec n ltac:(lia)) as H.
  replace (Z.log2 n + 1)%Z with (Z.succ (Z.log2 n)) by lia. lia.
Qed.

Lemma length_decimal :
  forall n,
    String.length (decimal n) = count_digits (Z.to_nat (Z.log2 n)) n.
Proof. intros n. unfold decimal. apply length_fixed_digits. Qed.

Lemma decimal_not_empty : forall n, decimal n <> "".
Proof.
  intros n H. apply (f_equal String.length) in H.
  rewrite length_decimal in H. cbn in H.
  pose proof (count_digits_pos (Z.to_nat (Z.log2 n)) n). lia.
Qed.

(** The digits of [decimal n] are enough for [n]. *)
Lemma decimal_upper :
  forall n, (0 <= n)%Z -> (n < 10 ^ Z.of_nat (String.length (decimal n)))%Z.
Proof.
  intros n Hn. rewrite length_decimal.
  apply count_digits_upper. split; [exact Hn|]. apply log2_fuel. exact Hn.
Qed.

(** A number of at least [10^k] has more than [k] digits. *)
Lemma decimal_long :
  forall n k,
    (10 ^ Z.of_nat k <= n)%Z -> (k < String.length (decimal n))%nat.
Proof.
  intros n k Hk.
  assert (Hn : (0 <= n)%Z) by (pose proof (Z.pow_pos_nonneg 10 (Z.of_nat k)); lia).
  pose proof (decimal_upper n Hn) as Hup.
  destruct (Nat.lt_ge_cases k (String.length (decimal n))) as [|Hge];
    [assumption|].
  pose proof (Z.pow_le_mono_r 10 (Z.of_nat (String.length (decimal n)))
                (Z.of_nat k) ltac:(lia) ltac:(lia)).
  lia.
Qed.

(** A number below [10^w] has at most [w] digits. *)
Lemma decimal_short :
  forall n w,
    (1 <= w)%nat -> (n < 10 ^ Z.of_nat w)%Z ->
    (String.length (decimal n) <= w)%nat.
Proof.
  intros n w Hw Hn. rewrite length_decimal.
  destruct (Nat.le_gt_cases (count_digits (Z.to_nat (Z.log2 n)) n) w)
    as [|Hgt]; [assumption|].
  pose proof (count_digits_lower (Z.to_nat (Z.log2 n)) n w ltac:(lia)). lia.
Qed.

(** [format_d] pads a short number with zeros and leaves a long one as it
    is. *)
Lemma format_d_small :
  forall w n,
    (1 <= w)%nat -> (0 <= n < 10 ^ Z.of_nat w)%Z ->
    format_d w n = fixed_digits w n.
Proof.
  intros w n Hw Hn. unfold format_d, zero_pad.
  destruct (Z.ltb_spec n 0) as [|_]; [lia|].
  rewrite Z.abs_eq by lia. cbn [String.length append].
  rewrite Nat.sub_0_r.
  pose proof (decimal_short n w Hw ltac:(lia)) as Hshort.
  pose proof (decimal_upper n ltac:(lia)) as Hup.
  set (c := String.length (decimal n)) in *.
  replace w with ((w - c) + c)%nat at 2 by lia.
  rewrite (fixed_digits_small c n (w - c)) by lia.
  unfold decimal. rewrite <- length_decimal. reflexivity.
Qed.

Lemma format_d_large :
  forall w n,
    (10 ^ Z.of_nat w <= n)%Z -> format_d w n = decimal n.
Proof.
  intros w n Hn. unfold format_d, zero_pad.
  assert (H0 : (0 <= n)%Z)
    by (pose proof (Z.pow_pos_nonneg 10 (Z.of_nat w)); lia).
  destruct (Z.ltb_spec n 0) as [|_]; [lia|].
  rewrite Z.abs_eq by lia. cbn [String.length append].
  pose proof (decimal_long n w Hn).
  replace (w - 0 - String.length (decimal n))%nat with 0%nat by lia.
  reflexivity.
Qed.

Local Open Scope float_scope.

(** *** reset_timer *)

(** C6: from any prior state, [reset_timer] yields a stopped timer with zero
    elapsed time and no laps, the timer state of a freshly built object; the
    status text, the lap display and the save button are those of a fresh
    object too. *)
Theorem reset_timer_yields_initial_state :
  forall s : app,
    is_running (reset_timer s) = false /\
    elapsed_time (reset_timer s) = 0 /\
    lap_times (reset_timer s) = [] /\
    timer_state (reset_timer s) = timer_state init /\
    status_label (reset_timer s) = status_label init /\
    lap_text (reset_timer s) = lap_text init /\
    save_button_enabled (reset_timer s) = save_button_enabled init.
Proof.
  intros s. unfold reset_timer, timer_state. cbn. repeat split; reflexivity.
Qed.

(** *** record_lap while stopped *)

(** C5: when the timer is not running, [record_lap] returns the object as it
    was, whatever the label and the wall clock: nothing is appended, nothing
    is displayed and no exception is raised (the function is total and
    evaluates no formatting on this path). *)
Theorem record_lap_stopped_is_noop :
  forall (lap_number : Z) (wall : datetime) (s : app),
    is_running s = false ->
    record_lap lap_number wall s = s.
Proof.
  intros n wall s Hstop. unfold record_lap. rewrite Hstop. reflexivity.
Qed.

Lemma record_lap_stopped_is_noop_witness :
  is_running (reset_timer sample_session) = false /\
  record_lap 4 sample_wall (reset_timer sample_session)
  = reset_timer sample_session.
Proof.
  split.
  - reflexivity.
  - apply (record_lap_stopped_is_noop 4 sample_wall (reset_timer sample_session)).
    reflexivity.
Defined.

(** *** save_results *)

(** C7: on a session without laps, [save_results] shows one information box
    and does nothing else: no file is written and no error is reported. *)
Theorem save_results_empty_session :
  forall (env : save_env) (s : app),
    lap_times s = [] ->
    save_results env s
    = (s, [Information "Information" "No lap times to save."]).
Proof.
  intros env s Hempty. unfold save_results. rewrite Hempty. reflexivity.
Qed.

Lemma save_results_empty_session_witness :
  lap_times init = [] /\
  save_results sample_env init
  = (init, [Information "Information" "No lap times to save."]).
Proof.
  split.
  - reflexivity.
  - apply (save_results_empty_session sample_env init). reflexivity.
Defined.

(** C10: whatever the dialogs answer and whether or not the file can be
    written, [save_results] leaves the object, and so the timer state, as it
    found it. *)
Theorem save_results_preserves_state :
  forall (env : save_env) (s : app),
    fst (save_results env s) = s /\
    timer_state (fst (save_results env s)) = timer_state s.
Proof.
  intros env s.
  assert (H : fst (save_results env s) = s).
  { unfold save_results.
    destruct (lap_times s); [reflexivity|].
    destruct (session_name_answer env) as [session_name ok].
    destruct (negb ok || (String.length (strip session_name) =? 0)%nat);
      [reflexivity|].
    destruct (String.length (file_path_answer env) =? 0)%nat; [reflexivity|].
    destruct (open_error env); [reflexivity|].
    destruct (write_session _ _ _ _) as [[u|e] contents];
      destruct (write_error env) as [[flushed e']|]; reflexivity. }
  split; [exact H | rewrite H; reflexivity].
Qed.

(** *** Refresh ticks *)

Lemma update_timer_frame :
  forall now s,
    start_time (update_timer now s) = start_time s /\
    is_running (update_timer now s) = is_running s /\
    lap_times (update_timer now s) = lap_times s.
Proof. intros now s. unfold update_timer. cbn. auto. Qed.

(** A refresh stores a value that depends on the clock and on the start
    reference only: a refresh after another stores what it would store
    alone. *)
Lemma update_timer_overwrites :
  forall now now' s,
    elapsed_time (update_timer now (update_timer now' s))
    = elapsed_time (update_timer now s).
Proof.
  intros now now' s. unfold update_timer. cbn.
  destruct (start_time s) as [t|]; [|reflexivity].
  destruct (is_running s && float_bool t); reflexivity.
Qed.

(** In particular a refresh brings the object up to date for its clock
    reading. *)
Lemma update_timer_idempotent :
  forall now s,
    elapsed_time (update_timer now (update_timer now s))
    = elapsed_time (update_timer now s).
Proof. intros now s. apply update_timer_overwrites. Qed.

Lemma timer_state_eq :
  forall s1 s2,
    timer_state s1 = timer_state s2 <->
    start_time s1 = start_time s2 /\ is_running s1 = is_running s2 /\
    elapsed_time s1 = elapsed_time s2 /\ lap_times s1 = lap_times s2.
Proof.
  intros s1 s2. unfold timer_state. split.
  - intros H. inversion H. auto.
  - intros (-> & -> & -> & ->). reflexivity.
Qed.

Lemma add_lap_to_display_frame :
  forall lap s, timer_state (add_lap_to_display lap s) = timer_state s.
Proof.
  intros lap s. unfold add_lap_to_display.
  destruct (format_time (lap_time lap)); [|reflexivity].
  destruct (format_time (total_time lap)); reflexivity.
Qed.

(** The timer state after a callback is a function of the timer state
    before it: the widgets do not feed back. *)
Lemma step_timer_state :
  forall c e s1 s2,
    timer_state s1 = timer_state s2 ->
    timer_state (step c e s1) = timer_state (step c e s2).
Proof.
  intros c e s1 s2 H. apply timer_state_eq in H.
  destruct H as (Hst & Hrun & Hel & Hlaps).
  destruct e; cbn [step].
  - unfold toggle_timer. rewrite Hrun, Hel, Hst, Hlaps.
    destruct (negb (is_running s2)); reflexivity.
  - unfold record_lap. rewrite Hrun.
    destruct (is_running s2) eqn:E.
    + rewrite !add_lap_to_display_frame. unfold timer_state. cbn.
      rewrite Hst, Hel, Hlaps. reflexivity.
    + apply timer_state_eq. repeat split; congruence.
  - reflexivity.
  - unfold update_timer, timer_state. cbn. rewrite Hst, Hrun, Hel, Hlaps.
    reflexivity.
Qed.

Lemma agree_after_refresh_refl :
  forall s1 s2, timer_state s1 = timer_state s2 -> agree_after_refresh s1 s2.
Proof.
  intros s1 s2 H.
  pose proof (fun now => step_timer_state (mkClock now sample_wall) Tick _ _ H)
    as Ht.
  apply timer_state_eq in H. destruct H as (Hst & Hrun & Hel & Hlaps).
  repeat split; auto.
  intros now. specialize (Ht now). apply timer_state_eq in Ht. tauto.
Qed.

Lemma agree_after_refresh_tick_left :
  forall now s1 s2,
    agree_after_refresh s1 s2 -> agree_after_refresh (update_timer now s1) s2.
Proof.
  intros now s1 s2 (Hst & Hrun & Hlaps & Hel).
  destruct (update_timer_frame now s1) as (F1 & F2 & F3).
  repeat split; try congruence.
  intros now'. rewrite update_timer_overwrites. apply Hel.
Qed.

Lemma agree_after_refresh_tick :
  forall now s1 s2,
    agree_after_refresh s1 s2 ->
    timer_state (update_timer now s1) = timer_state (update_timer now s2).
Proof.
  intros now s1 s2 (Hst & Hrun & Hlaps & Hel).
  destruct (update_timer_frame now s1) as (F1 & F2 & F3).
  destruct (update_timer_frame now s2) as (G1 & G2 & G3).
  apply timer_state_eq. repeat split; first [apply Hel | congruence].
Qed.

(** A toggle or a lap on an up-to-date object does what it does after a
    refresh at the same clock reading. *)
Lemma step_after_refresh :
  forall c e s1 s2,
    agree_after_refresh s1 s2 ->
    elapsed_time (update_timer (time_time c) s1) = elapsed_time s1 ->
    timer_state (step c e s1)
    = timer_state (step c e (update_timer (time_time c) s2)).
Proof.
  intros c e s1 s2 Hagree Hfresh.
  apply step_timer_state.
  rewrite <- (agree_after_refresh_tick (time_time c) s1 s2 Hagree).
  destruct (update_timer_frame (time_time c) s1) as (F1 & F2 & F3).
  apply timer_state_eq. repeat split; congruence.
Qed.

(** An up-to-date run and the run that refreshes before each of its events
    and nowhere else end in the same timer state, up to the last refresh. *)
Lemma run_refresh_each :
  forall l s1 s2,
    agree_after_refresh s1 s2 ->
    up_to_date l s1 ->
    agree_after_refresh (run l s1) (run (refresh_each (without_ticks l)) s2).
Proof.
  induction l as [|[c e] r IH]; intros s1 s2 Hagree Hup.
  - exact Hagree.
  - destruct Hup as [Hnow Hrest].
    destruct e; cbn [without_ticks filter snd is_tick negb refresh_each run];
      fold (without_ticks r).
    + apply IH; [|exact Hrest].
      apply agree_after_refresh_refl.
      apply (step_after_refresh c Toggle); assumption.
    + apply IH; [|exact Hrest].
      apply agree_after_refresh_refl.
      apply (step_after_refresh c (Lap lap_number)); assumption.
    + apply IH; [|exact Hrest].
      apply agree_after_refresh_refl. reflexivity.
    + apply IH; [|exact Hrest].
      cbn [step]. apply agree_after_refresh_tick_left. exact Hagree.
Qed.

(** C3, as amended: the refresh overwrites the elapsed time instead of
    adding to it, so how often it ran before does not matter; but
    [record_lap] and [toggle_timer] read the value the last refresh stored.
    Two runs of the same toggles, laps and resets at the same clock
    readings, which differ in their refresh ticks only, produce the same lap
    records (and the same start reference and running flag) provided each
    toggle and lap of both finds the elapsed time up to date. *)
Theorem refresh_ticks_do_not_matter_when_up_to_date :
  forall (l1 l2 : list (clock * event)) (s : app),
    without_ticks l1 = without_ticks l2 ->
    up_to_date l1 s ->
    up_to_date l2 s ->
    lap_times (run l1 s) = lap_times (run l2 s) /\
    start_time (run l1 s) = start_time (run l2 s) /\
    is_running (run l1 s) = is_running (run l2 s) /\
    forall now,
      elapsed_time (update_timer now (run l1 s))
      = elapsed_time (update_timer now (run l2 s)).
Proof.
  intros l1 l2 s Hsame H1 H2.
  assert (Hs : agree_after_refresh s s)
    by (apply agree_after_refresh_refl; reflexivity).
  destruct (run_refresh_each l1 s s Hs H1) as (A1 & A2 & A3 & A4).
  destruct (run_refresh_each l2 s s Hs H2) as (B1 & B2 & B3 & B4).
  rewrite Hsame in *.
  repeat split; [congruence | congruence | congruence |].
  intros now. rewrite A4, B4. reflexivity.
Qed.

Lemma refresh_ticks_do_not_matter_witness :
  without_ticks sample_events_busy = without_ticks sample_events /\
  up_to_date sample_events_busy init /\
  up_to_date sample_events init /\
  lap_times (run sample_events_busy init) = lap_times (run sample_events init).
Proof.
  assert (H0 : without_ticks sample_events_busy = without_ticks sample_events)
    by reflexivity.
  assert (H1 : up_to_date sample_events_busy init)
    by (vm_compute; repeat split; reflexivity).
  assert (H2 : up_to_date sample_events init)
    by (vm_compute; repeat split; reflexivity).
  split; [exact H0|]. split; [exact H1|]. split; [exact H2|].
  exact (proj1 (refresh_ticks_do_not_matter_when_up_to_date
                  sample_events_busy sample_events init H0 H1 H2)).
Defined.

(** C3, as stated, fails: a lap recorded five seconds after the start has a
    total of 5 s when a refresh ran just before it and of 0 s when none ran
    since the start, although the two runs differ in that refresh only. *)
Lemma skipped_refresh_changes_lap_records :
  without_ticks lap_after_refresh = without_ticks lap_without_refresh /\
  map total_time (lap_times (run lap_after_refresh init)) = [5] /\
  map total_time (lap_times (run lap_without_refresh init)) = [0] /\
  lap_times (run lap_after_refresh init)
  <> lap_times (run lap_without_refresh init).
Proof.
  repeat split; try reflexivity.
  intros H. apply (f_equal (map total_time)) in H.
  vm_compute in H. discriminate H.
Qed.

(** *** toggle_timer *)

Lemma update_timer_stopped :
  forall now s,
    is_running s = false ->
    elapsed_time (update_timer now s) = elapsed_time s /\
    is_running (update_timer now s) = false.
Proof.
  intros now s H. unfold update_timer. cbn. rewrite H.
  destruct (start_time s); auto.
Qed.

Lemma ticks_stopped :
  forall nows s,
    is_running s = false ->
    elapsed_time (run (ticks nows) s) = elapsed_time s.
Proof.
  induction nows as [|now r IH]; intros s H; [reflexivity|].
  cbn [ticks map run step time_time]. fold (ticks r).
  destruct (update_timer_stopped now s H) as [He Hr].
  rewrite (IH _ Hr). exact He.
Qed.

(** C4, as amended: [toggle_timer] never changes the elapsed time.  While
    running it stops the timer, after which no refresh changes the elapsed
    time; while stopped it starts the timer with the float difference
    [now - elapsed_time] as start reference, so that a later refresh stores
    [now' - (now - elapsed_time)] (when that reference is not zero).  This is
    the frozen value plus the time since the resume up to the rounding of
    the two subtractions, not exactly. *)
Theorem toggle_timer_pause_resume :
  forall (now : float) (s : app),
    elapsed_time (toggle_timer now s) = elapsed_time s /\
    lap_times (toggle_timer now s) = lap_times s /\
    (is_running s = true ->
     is_running (toggle_timer now s) = false /\
     start_time (toggle_timer now s) = start_time s /\
     forall nows,
       elapsed_time (run (ticks nows) (toggle_timer now s)) = elapsed_time s) /\
    (is_running s = false ->
     is_running (toggle_timer now s) = true /\
     start_time (toggle_timer now s) = Some (now - elapsed_time s) /\
     forall now',
       float_bool (now - elapsed_time s) = true ->
       elapsed_time (update_timer now' (toggle_timer now s))
       = now' - (now - elapsed_time s)).
Proof.
  intros now s. unfold toggle_timer.
  destruct (is_running s) eqn:Hrun; cbn [negb]; cbn.
  - split; [reflexivity|]. split; [reflexivity|].
    split; [|discriminate].
    intros _. split; [reflexivity|]. split; [reflexivity|].
    intros nows. rewrite ticks_stopped; reflexivity.
  - split; [reflexivity|]. split; [reflexivity|].
    split; [discriminate|].
    intros _. split; [reflexivity|]. split; [reflexivity|].
    intros now' Hnz. unfold update_timer. cbn. rewrite Hnz. reflexivity.
Qed.

Lemma toggle_timer_pause_resume_witness :
  is_running (run pause_events init) = false /\
  float_bool (10 - elapsed_time (run pause_events init)) = true /\
  elapsed_time (update_timer 12 (toggle_timer 10 (run pause_events init)))
  = 12 - (10 - elapsed_time (run pause_events init)).
Proof.
  assert (H1 : is_running (run pause_events init) = false) by reflexivity.
  assert (H2 : float_bool (10 - elapsed_time (run pause_events init)) = true)
    by reflexivity.
  split; [exact H1|]. split; [exact H2|].
  exact (proj2 (proj2 (proj2 (proj2 (proj2
           (toggle_timer_pause_resume 10 (run pause_events init)))) H1))
           12 H2).
Defined.

(** C4, as stated, fails: a timer stopped at 0.09999999999999998 s and
    resumed at clock reading 10 shows 0.09999999999999964 s at the instant of
    the resume. *)
Lemma resume_is_not_exact :
  is_running (run pause_events init) = false /\
  elapsed_time (run pause_events init) = 0.09999999999999998 /\
  elapsed_time (run (pause_events ++ resume_events) init)
  = 0.09999999999999964 /\
  PrimFloat.eqb
    (elapsed_time (run (pause_events ++ resume_events) init))
    (elapsed_time (run pause_events init)) = false.
Proof. repeat split; reflexivity. Qed.

(** *** The lap records *)

Lemma nth_error_last :
  forall (A : Type) (l : list A) (d a : A),
    nth_error l (List.length l - 1) = Some a -> l <> [] -> last l d = a.
Proof.
  intros A l d a. induction l as [|x r IH]; intros H Hne;
    [contradiction Hne; reflexivity|].
  destruct r as [|y r'].
  - cbn in H. injection H as <-. reflexivity.
  - cbn [last]. apply IH; [|discriminate].
    cbn [List.length Nat.sub nth_error] in *.
    rewrite Nat.sub_0_r. exact H.
Qed.

Lemma consistent_laps_nil : consistent_laps [].
Proof.
  split.
  - intros a H. discriminate H.
  - intros i a b H. destruct i; discriminate H.
Qed.

(** Appending a record that continues the sequence keeps it consistent. *)
Lemma consistent_laps_snoc :
  forall laps lap,
    consistent_laps laps ->
    (laps = [] -> lap_time lap = total_time lap) ->
    (forall a,
        nth_error laps (List.length laps - 1) = Some a ->
        lap_time lap = total_time lap - total_time a /\
        PrimFloat.leb (total_time a) (total_time lap) = true) ->
    consistent_laps (laps ++ [lap])%list.
Proof.
  intros laps lap [Hfirst Hnext] Hempty Hlast. split.
  - intros a H. destruct laps as [|x r].
    + cbn in H. injection H as <-. apply Hempty. reflexivity.
    + apply Hfirst. exact H.
  - intros i a b Ha Hb.
    destruct (Nat.lt_ge_cases (S i) (List.length laps)) as [Hlt|Hge].
    + rewrite nth_error_app1 in Ha by lia.
      rewrite nth_error_app1 in Hb by lia.
      exact (Hnext i a b Ha Hb).
    + rewrite nth_error_app2 in Hb by lia.
      destruct (S i - List.length laps)%nat as [|k] eqn:Hk.
      * cbn in Hb. injection Hb as <-.
        rewrite nth_error_app1 in Ha by lia.
        apply Hlast. replace (List.length laps - 1)%nat with i by lia.
        exact Ha.
      * destruct k; discriminate Hb.
Qed.

Lemma record_lap_lap_times :
  forall n wall s,
    is_running s = true ->
    lap_times (record_lap n wall s)
    = (lap_times s
       ++ [{| number := n;
             lap_time :=
               match lap_times s with
               | [] => elapsed_time s
               | _ :: _ =>
                   elapsed_time s
                   - total_time (last (lap_times s) (mkLap 0 0 0 wall))
               end;
             total_time := elapsed_time s;
             timestamp := wall |}])%list.
Proof.
  intros n wall s Hrun. unfold record_lap. rewrite Hrun.
  match goal with
  | |- lap_times (add_lap_to_display ?lap ?s') = _ =>
      pose proof (add_lap_to_display_frame lap s') as H
  end.
  apply timer_state_eq in H. destruct H as (_ & _ & _ & H).
  rewrite H. reflexivity.
Qed.

Lemma step_consistent_laps :
  forall c e s,
    consistent_laps (lap_times s) ->
    match e with
    | Lap _ =>
        is_running s = true ->
        forall a, nth_error (lap_times s) (List.length (lap_times s) - 1)
                  = Some a ->
                  PrimFloat.leb (total_time a) (elapsed_time s) = true
    | _ => True
    end ->
    consistent_laps (lap_times (step c e s)).
Proof.
  intros c e s Hcons Hmono. destruct e; cbn [step].
  - unfold toggle_timer. destruct (negb (is_running s)); exact Hcons.
  - destruct (is_running s) eqn:Hrun.
    + rewrite (record_lap_lap_times _ _ _ Hrun).
      apply consistent_laps_snoc; [exact Hcons| |]; cbn.
      * intros ->. reflexivity.
      * intros a Ha.
        destruct (lap_times s) as [|x r] eqn:Hl; [discriminate Ha|].
        rewrite (nth_error_last _ (x :: r) (mkLap 0 0 0 (datetime_now c)) a Ha)
          by discriminate.
        split; [reflexivity|]. apply (Hmono eq_refl). exact Ha.
    + unfold record_lap. rewrite Hrun. exact Hcons.
  - apply consistent_laps_nil.
  - exact Hcons.
Qed.

(** X13: along any run in which the elapsed time read by [record_lap] does
    not decrease from one lap to the next, the [total_time] values of
    [lap_times] do not decrease, the first record's [lap_time] is its
    [total_time], and every later record's [lap_time] is the float
    difference between its [total_time] and the previous one. *)
Theorem lap_records_are_consistent :
  forall (l : list (clock * event)) (s : app),
    consistent_laps (lap_times s) ->
    elapsed_nondecreasing l s ->
    consistent_laps (lap_times (run l s)).
Proof.
  induction l as [|[c e] r IH]; intros s Hcons Hmono; [exact Hcons|].
  destruct Hmono as [Hnow Hrest]. cbn [run].
  apply IH; [|exact Hrest].
  apply step_consistent_laps; assumption.
Qed.

Lemma sample_events_nondecreasing : elapsed_nondecreasing sample_events init.
Proof.
  vm_compute. repeat split; intros _ a H; try discriminate H.
  injection H as <-. reflexivity.
Qed.

Lemma lap_records_are_consistent_witness :
  consistent_laps (lap_times init) /\
  elapsed_nondecreasing sample_events init /\
  consistent_laps (lap_times (run sample_events init)).
Proof.
  split; [exact consistent_laps_nil|].
  split; [exact sample_events_nondecreasing|].
  exact (lap_records_are_consistent sample_events init
           consistent_laps_nil sample_events_nondecreasing).
Defined.

(** The sum of the lap times need not be the last total bit for bit: in a
    session started at clock reading 0.1 with laps at 0.4 and 2.5, the
    elapsed time does not decrease, the lap times 0.30000000000000004 and
    2.0999999999999996 add up to 2.3999999999999995, and the last total is
    2.4, its neighbour among the floats. *)
Lemma lap_sum_differs_from_total :
  elapsed_nondecreasing uneven_events init /\
  map total_time (lap_times (run uneven_events init))
  = [0.30000000000000004; 2.4] /\
  map lap_time (lap_times (run uneven_events init))
  = [0.30000000000000004; 2.0999999999999996] /\
  sum_floats (map lap_time (lap_times (run uneven_events init)))
  = 2.3999999999999995 /\
  PrimFloat.eqb
    (sum_floats (map lap_time (lap_times (run uneven_events init))))
    2.4 = false.
Proof.
  split.
  - vm_compute. repeat split; intros _ a H; try discriminate H.
    injection H as <-. reflexivity.
  - repeat split; reflexivity.
Qed.

(** *** format_time *)

Lemma round_half_even_nearest_even :
  forall m e, nearest_even (round_half_even m e) m e.
Proof.
  intros m e. unfold nearest_even, round_half_even.
  destruct (Z.leb_spec 0 e) as [Hle|Hneg]; [reflexivity|].
  set (den := (2 ^ (- e))%Z).
  assert (Hden : (0 < den)%Z) by (apply Z.pow_pos_nonneg; lia).
  pose proof (Z.div_mod m den ltac:(lia)) as Hdm.
  pose proof (Z.mod_pos_bound m den Hden) as Hr.
  set (q := (m / den)%Z) in *. set (r := (m mod den)%Z) in *.
  destruct (Z.compare_spec (2 * r) den) as [Heq|Hlt|Hgt].
  - right. destruct (Z.even q) eqn:Hq.
    + split; [lia|exact Hq].
    + split; [lia|]. rewrite Z.even_add, Hq. reflexivity.
  - left. lia.
  - left. lia.
Qed.

(** The description pins the value: no two integers are nearest in this
    sense. *)
Lemma nearest_even_unique :
  forall n n' m e, nearest_even n m e -> nearest_even n' m e -> n = n'.
Proof.
  intros n n' m e. unfold nearest_even.
  destruct (Z.leb_spec 0 e) as [Hle|Hneg]; [congruence|].
  set (d := (2 ^ (- e))%Z).
  assert (Hd : (0 < d)%Z) by (apply Z.pow_pos_nonneg; lia).
  intros H H'.
  assert (Hclose : (Z.abs (n - n') <= 1)%Z).
  { assert (Z.abs (n - n') * d <= d)%Z
      by (destruct H as [H|[H _]], H' as [H'|[H' _]]; nia).
    nia. }
  destruct (Z.eq_dec n n') as [|Hne]; [assumption|exfalso].
  assert (Hboth : (2 * Z.abs (n * d - m) = d /\ 2 * Z.abs (n' * d - m) = d)%Z)
    by (destruct H as [H|[H _]], H' as [H'|[H' _]]; nia).
  destruct H as [H|[_ He]]; [lia|]. destruct H' as [H'|[_ He']]; [lia|].
  assert (n' = n + 1 \/ n = n' + 1)%Z as [->| ->] by lia.
  - rewrite Z.even_add in He'. rewrite He in He'. discriminate.
  - rewrite Z.even_add in He. rewrite He' in He. discriminate.
Qed.

Lemma round_half_even_nonneg :
  forall m e, (0 <= m)%Z -> (0 <= round_half_even m e)%Z.
Proof.
  intros m e Hm. unfold round_half_even.
  destruct (Z.leb_spec 0 e) as [Hle|Hneg].
  - apply Z.mul_nonneg_nonneg; [exact Hm|]. apply Z.pow_nonneg. lia.
  - assert (Hden : (0 < 2 ^ (- e))%Z) by (apply Z.pow_pos_nonneg; lia).
    pose proof (Z.div_pos m (2 ^ (- e)) Hm Hden).
    destruct (2 * (m mod 2 ^ (- e)) ?= 2 ^ (- e))%Z;
      [destruct (Z.even (m / 2 ^ (- e)))|..]; lia.
Qed.

(** A count of hundredths below 6000 fills the five characters of the
    ['05.2f'] field with two digits, the point and two digits. *)
Lemma seconds_field :
  forall n : Z,
    (0 <= n < 6000)%Z ->
    zero_pad 5 false (fixed_point 2 n)
    = (fixed_digits 2 (n / 100) ++ "." ++ fixed_digits 2 n)%string.
Proof.
  intros n Hn.
  assert (Hq : (0 <= n / 100 < 10 ^ Z.of_nat 2)%Z).
  { split; [apply Z.div_pos; lia|].
    apply Z.div_lt_upper_bound; cbn; lia. }
  pose proof (format_d_small 2 (n / 100) ltac:(lia) Hq) as Hd.
  unfold format_d, zero_pad in Hd.
  destruct (Z.ltb_spec (n / 100) 0) as [|_]; [lia|].
  rewrite Z.abs_eq in Hd by lia. cbn [String.length append] in Hd.
  unfold zero_pad, fixed_point. cbn [String.length append].
  change (10 ^ Z.of_nat 2)%Z with 100%Z.
  rewrite string_length_app. cbn [String.length].
  rewrite length_fixed_digits.
  replace (5 - 0 - (String.length (decimal (n / 100)) + 3))%nat
    with (2 - 0 - String.length (decimal (n / 100)))%nat by lia.
  rewrite <- string_app_assoc, Hd. reflexivity.
Qed.

(** C2, as amended: [format_time] rounds, it does not truncate.  The minutes
    field is [int(seconds // 60)].  The seconds field shows the hundredths
    nearest to the exact value [m * 2^e] of the remainder [seconds % 60],
    the even count when the value lies half way between two, as two digits,
    a point and two digits, whenever that count is below 6000.  What is
    shown when the remainder rounds to 60.00 is left out of this
    statement. *)
Theorem format_time_rounds_half_even :
  forall (seconds : float) (minutes m e : Z),
    int_of_float (float_floor_div seconds 60) = Ok minutes ->
    nonneg_value (float_rem seconds 60) = Some (m, e) ->
    exists hundredths : Z,
      nearest_even hundredths (m * 100) e /\
      ((hundredths < 6000)%Z ->
       format_time seconds
       = Ok (format_d 2 minutes ++ ":"
             ++ fixed_digits 2 (hundredths / 100) ++ "."
             ++ fixed_digits 2 hundredths)).
Proof.
  intros seconds minutes m e Hmin Hrem.
  unfold nonneg_value in Hrem.
  destruct (Prim2SF (float_rem seconds 60)) as [[]|[]| |[] p e0] eqn:E;
    try discriminate Hrem; injection Hrem as <- <-.
  - exists 0%Z. split; [reflexivity|]. intros _.
    unfold format_time. rewrite Hmin. unfold format_f. rewrite E.
    reflexivity.
  - exists (round_half_even (Z.pos p * 100) e0). split.
    + apply round_half_even_nearest_even.
    + intros Hlt. unfold format_time. rewrite Hmin.
      unfold format_f. rewrite E.
      change (10 ^ Z.of_nat 2)%Z with 100%Z.
      rewrite seconds_field; [reflexivity|].
      split; [apply round_half_even_nonneg; lia|exact Hlt].
Qed.

Lemma format_time_rounds_half_even_witness :
  int_of_float (float_floor_div 12.345 60) = Ok 0%Z /\
  nonneg_value (float_rem 12.345 60) = Some (6949617174986097%Z, (-49)%Z) /\
  nearest_even 1235 (6949617174986097 * 100) (-49) /\
  exists hundredths : Z,
    nearest_even hundredths (6949617174986097 * 100) (-49) /\
    ((hundredths < 6000)%Z ->
     format_time 12.345
     = Ok (format_d 2 0 ++ ":"
           ++ fixed_digits 2 (hundredths / 100) ++ "."
           ++ fixed_digits 2 hundredths)).
Proof.
  assert (H1 : int_of_float (float_floor_div 12.345 60) = Ok 0%Z)
    by (vm_compute; reflexivity).
  assert (H2 : nonneg_value (float_rem 12.345 60)
               = Some (6949617174986097%Z, (-49)%Z))
    by (vm_compute; reflexivity).
  split; [exact H1|]. split; [exact H2|].
  split; [left; vm_compute; reflexivity|].
  exact (format_time_rounds_half_even
           12.345 0%Z 6949617174986097%Z (-49)%Z H1 H2).
Defined.

(** C2, as stated, fails: truncation would display 12.345 s, whose exact
    value is a little above 12.345, as "00:12.34"; [format_time] displays
    "00:12.35". *)
Lemma format_time_does_not_truncate :
  format_duration_truncating 12.345 = Ok "00:12.34" /\
  format_time 12.345 = Ok "00:12.35" /\
  format_time 12.345 <> format_duration_truncating 12.345.
Proof.
  split; [vm_compute; reflexivity|].
  split; [vm_compute; reflexivity|].
  intros H. vm_compute in H. discriminate H.
Qed.

(** C9: the four examples (0 and 65 both as Python ints and as floats), and
    the minutes field: whenever the minutes are not negative the field is
    [format_d 2 minutes]; below 100 it is the two digits of the minutes, from
    100 on it is their decimal notation unpadded and uncut, longer than [k]
    characters as soon as the minutes reach [10^k]. *)
Theorem format_time_examples_and_minutes_field :
  format_time_int 0 = "00:00.00"%string /\
  format_time_int 65 = "01:05.00"%string /\
  format_time 0 = Ok "00:00.00" /\
  format_time 65 = Ok "01:05.00" /\
  format_time 125.4 = Ok "02:05.40" /\
  format_time 3661.5 = Ok "61:01.50" /\
  forall (seconds : float) (minutes : Z),
    int_of_float (float_floor_div seconds 60) = Ok minutes ->
    (0 <= minutes)%Z ->
    exists rest : string,
      format_time seconds = Ok (format_d 2 minutes ++ ":" ++ rest) /\
      ((minutes < 100)%Z ->
       format_d 2 minutes = fixed_digits 2 minutes /\
       String.length (format_d 2 minutes) = 2%nat) /\
      ((100 <= minutes)%Z -> format_d 2 minutes = decimal minutes) /\
      (forall k : nat,
          (2 <= k)%nat -> (10 ^ Z.of_nat k <= minutes)%Z ->
          (k < String.length (format_d 2 minutes))%nat).
Proof.
  repeat (split; [vm_compute; reflexivity|]).
  intros seconds minutes Hmin Hpos.
  exists (format_f 5 2 (float_rem seconds 60)). split.
  - unfold format_time. rewrite Hmin. reflexivity.
  - split; [|split].
    + intros Hlt.
      rewrite format_d_small by (cbn; lia).
      split; [reflexivity|apply length_fixed_digits].
    + intros Hge. apply format_d_large. cbn. lia.
    + intros k Hk Hge.
      assert (H100 : (10 ^ Z.of_nat 2 <= minutes)%Z).
      { pose proof (Z.pow_le_mono_r 10 (Z.of_nat 2) (Z.of_nat k)
                      ltac:(lia) ltac:(lia)). lia. }
      rewrite (format_d_large 2 minutes H100).
      apply decimal_long. exact Hge.
Qed.

Lemma format_time_examples_and_minutes_field_witness :
  int_of_float (float_floor_div 60000.5 60) = Ok 1000%Z /\
  exists rest : string,
    format_time 60000.5 = Ok (format_d 2 1000 ++ ":" ++ rest) /\
    ((1000 < 100)%Z ->
     format_d 2 1000 = fixed_digits 2 1000 /\
     String.length (format_d 2 1000) = 2%nat) /\
    ((100 <= 1000)%Z -> format_d 2 1000 = decimal 1000) /\
    (forall k : nat,
        (2 <= k)%nat -> (10 ^ Z.of_nat k <= 1000)%Z ->
        (k < String.length (format_d 2 1000))%nat).
Proof.
  assert (H1 : int_of_float (float_floor_div 60000.5 60) = Ok 1000%Z)
    by (vm_compute; reflexivity).
  split; [exact H1|].
  exact (proj2 (proj2 (proj2 (proj2 (proj2 (proj2
           format_time_examples_and_minutes_field)))))
           60000.5 1000%Z H1 ltac:(lia)).
Defined.

(** *** The exported text *)

Lemma is_digit_not_special :
  forall c, is_digit c = true -> special c = false.
Proof.
  intros [[] [] [] [] [] [] [] []]; vm_compute; intros H;
    first [reflexivity | discriminate H].
Qed.

Lemma is_digit_digit : forall n, is_digit (digit n) = true.
Proof.
  intros n. unfold digit.
  pose proof (Z.mod_pos_bound n 10 ltac:(lia)) as H.
  assert (Hk : (Z.to_nat (n mod 10) < 10)%nat) by lia.
  destruct (Z.to_nat (n mod 10)) as [|[|[|[|[|[|[|[|[|[|k]]]]]]]]]];
    first [reflexivity | lia].
Qed.

Lemma all_digits_app :
  forall a b, all_digits (a ++ b) = all_digits a && all_digits b.
Proof.
  induction a as [|x a IH]; intros b; cbn; [reflexivity|].
  rewrite IH. apply andb_assoc.
Qed.

Lemma all_digits_zeros : forall k, all_digits (zeros k) = true.
Proof. induction k; cbn; auto. Qed.

Lemma all_digits_fixed_digits :
  forall p n, all_digits (fixed_digits p n) = true.
Proof.
  induction p as [|p IH]; intros n; cbn [fixed_digits]; [reflexivity|].
  rewrite all_digits_app, IH. cbn [all_digits andb].
  rewrite is_digit_digit. reflexivity.
Qed.

Lemma all_digits_decimal : forall n, all_digits (decimal n) = true.
Proof. intros n. apply all_digits_fixed_digits. Qed.

Lemma plain_app : forall a b, plain a -> plain b -> plain (a ++ b).
Proof.
  unfold plain. induction a as [|x a IH]; intros b Ha Hb; cbn in *;
    [exact Hb|].
  apply orb_false_iff in Ha. destruct Ha as [Hx Ha].
  rewrite Hx, (IH b Ha Hb). reflexivity.
Qed.

Lemma plain_digits : forall s, all_digits s = true -> plain s.
Proof.
  unfold plain. induction s as [|x s IH]; intros H; cbn in *; [reflexivity|].
  apply andb_true_iff in H. destruct H as [Hx Hs].
  rewrite (is_digit_not_special x Hx), (IH Hs). reflexivity.
Qed.

Lemma plain_zero_pad :
  forall w neg body, plain body -> plain (zero_pad w neg body).
Proof.
  intros w neg body H. unfold zero_pad.
  apply plain_app; [destruct neg; reflexivity|].
  apply plain_app; [|exact H].
  apply plain_digits, all_digits_zeros.
Qed.

Lemma plain_format_d : forall w n, plain (format_d w n).
Proof.
  intros w n. apply plain_zero_pad, plain_digits, all_digits_decimal.
Qed.

Lemma plain_str_int : forall n, plain (str_int n).
Proof.
  intros n. unfold str_int.
  apply plain_app; [destruct (n <? 0)%Z; reflexivity|].
  apply plain_digits, all_digits_decimal.
Qed.

Lemma plain_fixed_point : forall p n, plain (fixed_point p n).
Proof.
  intros p n. unfold fixed_point.
  apply plain_app; [apply plain_digits, all_digits_decimal|].
  apply (plain_app "."); [reflexivity|].
  apply plain_digits, all_digits_fixed_digits.
Qed.

Lemma plain_format_f : forall w p x, plain (format_f w p x).
Proof.
  intros w p x. unfold format_f.
  destruct (Prim2SF x); apply plain_zero_pad;
    first [apply plain_fixed_point | reflexivity].
Qed.

Lemma plain_format_time :
  forall x str, format_time x = Ok str -> plain str.
Proof.
  intros x str H. unfold format_time in H.
  destruct (int_of_float (float_floor_div x 60)) as [minutes|e];
    [|discriminate H].
  injection H as <-.
  apply plain_app; [apply plain_format_d|].
  apply (plain_app ":"); [reflexivity|apply plain_format_f].
Qed.

Lemma plain_strftime_HMS : forall d, plain (strftime_HMS d).
Proof.
  intros d. unfold strftime_HMS.
  repeat first [apply plain_format_d
               | apply plain_app
               | reflexivity].
Qed.

Lemma plain_strftime_Ymd_HMS : forall d, plain (strftime_Ymd_HMS d).
Proof.
  intros d. unfold strftime_Ymd_HMS.
  repeat first [apply plain_format_d
               | apply plain_strftime_HMS
               | apply plain_app
               | reflexivity].
Qed.

Lemma plain_millisecond_stamp : forall d, plain (millisecond_stamp d).
Proof.
  intros d. unfold millisecond_stamp.
  apply plain_app; [apply plain_strftime_Ymd_HMS|].
  apply (plain_app "."); [reflexivity|].
  apply plain_digits, all_digits_fixed_digits.
Qed.

Lemma csv_field_plain : forall s, plain s -> csv_field s = s.
Proof. intros s H. unfold csv_field. rewrite H. reflexivity. Qed.

(** The [%f] field cut to its first three digits shows the milliseconds. *)
Lemma timestamp_cell :
  forall d,
    valid_datetime d ->
    drop_last 3 (strftime_Ymd_HMS_f d) = millisecond_stamp d.
Proof.
  intros d Hd. unfold strftime_Ymd_HMS_f, millisecond_stamp, valid_datetime in *.
  rewrite format_d_small by (cbn; lia).
  change 6%nat with (3 + 3)%nat.
  rewrite (fixed_digits_split 3 3 (microsecond d)).
  change (10 ^ Z.of_nat 3)%Z with 1000%Z.
  rewrite <- !string_app_assoc.
  apply drop_last_app, length_fixed_digits.
Qed.

Lemma map_csv_field_plain :
  forall row : list cell,
    Forall (fun c => plain (cell_text c)) row ->
    map (fun c => csv_field (cell_text c)) row = map cell_text row.
Proof.
  intros row H. induction H as [|c r Hc Hr IH]; cbn; [reflexivity|].
  rewrite (csv_field_plain _ Hc), IH. reflexivity.
Qed.

(** A row of plain fields is written as the fields joined by commas. *)
Lemma csv_record_plain :
  forall row : list cell,
    Forall (fun c => plain (cell_text c)) row ->
    (row <> [] -> join "," (map cell_text row) <> "") ->
    csv_record row = line (join "," (map cell_text row)).
Proof.
  intros row Hplain Hne. unfold csv_record, line.
  rewrite (map_csv_field_plain row Hplain).
  destruct row as [|c r]; [reflexivity|].
  destruct (join "," (map cell_text (c :: r))) eqn:E; [|reflexivity].
  exfalso. apply Hne; [discriminate|reflexivity].
Qed.

Lemma display_ok :
  forall x str, format_time x = Ok str -> display x = str.
Proof. intros x str H. unfold display. rewrite H. reflexivity. Qed.

(** One lap, one line. *)
Lemma write_lap_row :
  forall (lap : lap_data) (buf : string),
    displayable (lap_time lap) ->
    displayable (total_time lap) ->
    valid_datetime (timestamp lap) ->
    write_lap lap buf = (Ok tt, buf ++ line (lap_row lap)).
Proof.
  intros lap buf [a Ha] [b Hb] Hd.
  unfold write_lap, wbind, wlift, writerow. rewrite Ha, Hb.
  rewrite csv_record_plain.
  - unfold lap_row. rewrite (display_ok _ _ Ha), (display_ok _ _ Hb).
    rewrite (timestamp_cell _ Hd). reflexivity.
  - rewrite (timestamp_cell _ Hd).
    repeat constructor; cbn [cell_text];
      first [apply plain_str_int
            | apply plain_format_f
            | apply (plain_format_time _ _ Ha)
            | apply (plain_format_time _ _ Hb)
            | apply plain_millisecond_stamp].
  - intros _. cbn [map cell_text join]. apply string_app_not_empty.
Qed.

(** The loop over the laps writes their lines in the order of the list. *)
Lemma for_each_write_lap :
  forall (laps : list lap_data) (buf : string),
    Forall (fun lap => displayable (lap_time lap) /\
                       displayable (total_time lap) /\
                       valid_datetime (timestamp lap)) laps ->
    for_each laps write_lap buf = (Ok tt, buf ++ lines (map lap_row laps)).
Proof.
  induction laps as [|lap r IH]; intros buf H.
  - cbn. rewrite string_app_nil_r. reflexivity.
  - inversion H as [|? ? (H1 & H2 & H3) Hr]; subst.
    cbn [for_each map lines]. unfold wbind.
    rewrite (write_lap_row lap buf H1 H2 H3), (IH _ Hr).
    rewrite string_app_assoc. reflexivity.
Qed.

(** A duration that has a display is a finite number. *)
Lemma displayable_finite :
  forall x,
    displayable x ->
    exists s m e,
      Prim2SF x = S754_zero s \/ Prim2SF x = S754_finite s m e.
Proof.
  intros x [str H].
  pose proof (SF2Prim_Prim2SF x) as Hx.
  destruct (Prim2SF x) as [s|s| |s m e] eqn:E.
  - exists s, 1%positive, 0%Z. auto.
  - exfalso. rewrite <- Hx in H. destruct s; vm_compute in H; discriminate H.
  - exfalso. rewrite <- Hx in H. vm_compute in H. discriminate H.
  - exists s, m, e. auto.
Qed.

Lemma has_decimals_fixed_point :
  forall (p : nat) (neg : bool) (n : Z),
    has_decimals p (zero_pad 0 neg (fixed_point p n)).
Proof.
  intros p neg n. unfold zero_pad.
  exists (if neg then "-" else ""), (decimal (n / 10 ^ Z.of_nat p)),
    (fixed_digits p n).
  split; [reflexivity|].
  split; [destruct neg; auto|].
  split; [apply all_digits_decimal|].
  split; [apply decimal_not_empty|].
  split; [apply all_digits_fixed_digits|apply length_fixed_digits].
Qed.

(** The ['.3f'] format of a duration that has a display has three decimal
    places. *)
Lemma has_decimals_format_f :
  forall (p : nat) (x : float),
    displayable x -> has_decimals p (format_f 0 p x).
Proof.
  intros p x Hx. unfold format_f.
  destruct (displayable_finite x Hx) as (s & m & e & [H|H]); rewrite H;
    apply has_decimals_fixed_point.
Qed.

Lemma write_session_text :
  forall (s : app) (name total : string) (date : datetime),
    format_time (elapsed_time s) = Ok total ->
    Forall (fun lap => displayable (lap_time lap) /\
                       displayable (total_time lap) /\
                       valid_datetime (timestamp lap)) (lap_times s) ->
    write_session s name date ""
    = (Ok tt,
       line "# Session Information"
       ++ line ("Session Name," ++ csv_field name)
       ++ line ("Save Date," ++ strftime_Ymd_HMS date)
       ++ line ("Total Laps,"
                ++ decimal (Z.of_nat (List.length (lap_times s))))
       ++ line ("Total Time," ++ total)
       ++ line ""
       ++ line ("Lap Number,Lap Time (sec),Lap Time (display),"
                ++ "Total Time (sec),Total Time (display),Timestamp")
       ++ lines (map lap_row (lap_times s))).
Proof.
  intros s name total date Htotal Hlaps.
  unfold write_session, wbind, wlift, writerow. rewrite Htotal.
  rewrite (for_each_write_lap _ _ Hlaps).
  assert (R2 : csv_record [CStr "Session Name"; CStr name]
               = line ("Session Name," ++ csv_field name)) by reflexivity.
  assert (R3 : csv_record [CStr "Save Date"; CStr (strftime_Ymd_HMS date)]
               = line ("Save Date," ++ strftime_Ymd_HMS date)).
  { rewrite csv_record_plain; [reflexivity| |intros _; discriminate].
    repeat constructor. apply plain_strftime_Ymd_HMS. }
  assert (R4 : csv_record
                 [CStr "Total Laps";
                  CInt (Z.of_nat (List.length (lap_times s)))]
               = line ("Total Laps,"
                       ++ decimal (Z.of_nat (List.length (lap_times s))))).
  { rewrite csv_record_plain; [| |intros _; discriminate].
    - cbn [map cell_text join]. unfold str_int.
      destruct (Z.ltb_spec (Z.of_nat (List.length (lap_times s))) 0);
        [lia|].
      rewrite Z.abs_eq by lia. reflexivity.
    - repeat constructor. apply plain_str_int. }
  assert (R5 : csv_record [CStr "Total Time"; CStr total]
               = line ("Total Time," ++ total)).
  { rewrite csv_record_plain; [reflexivity| |intros _; discriminate].
    repeat constructor. apply (plain_format_time _ _ Htotal). }
  rewrite R2, R3, R4, R5.
  change (csv_record [CStr "# Session Information"])
    with (line "# Session Information").
  change (csv_record []) with (line "").
  change (csv_record csv_header)
    with (line ("Lap Number,Lap Time (sec),Lap Time (display),"
                ++ "Total Time (sec),Total Time (display),Timestamp")).
  rewrite !string_app_assoc. reflexivity.
Qed.

(** C8: for a session with laps whose durations have a display and whose
    timestamps are well formed, for dialogs answered with a name and a
    path, and when the operating system reports no error, [save_results]
    writes one file.  Its text is, in this order, the
    marker line, the session name, the save date, the number of laps, the
    displayed total time, an empty line, the line of the six column names,
    and one line per lap in the order of recording; a lap's line holds the
    label, the lap time with three decimals, its display, the total time
    with three decimals, its display, and the timestamp with its
    milliseconds. *)
Theorem exported_text_layout :
  forall (env : save_env) (s : app) (name total : string),
    lap_times s <> [] ->
    session_name_answer env = (name, true) ->
    strip name <> "" ->
    file_path_answer env <> "" ->
    open_error env = None ->
    write_error env = None ->
    format_time (elapsed_time s) = Ok total ->
    Forall (fun lap => displayable (lap_time lap) /\
                       displayable (total_time lap) /\
                       valid_datetime (timestamp lap)) (lap_times s) ->
    save_results env s
    = (s,
       [FileWritten (file_path_answer env)
          (line "# Session Information"
           ++ line ("Session Name," ++ csv_field (strip name))
           ++ line ("Save Date," ++ strftime_Ymd_HMS (save_date env))
           ++ line ("Total Laps,"
                    ++ decimal (Z.of_nat (List.length (lap_times s))))
           ++ line ("Total Time," ++ total)
           ++ line ""
           ++ line ("Lap Number,Lap Time (sec),Lap Time (display),"
                    ++ "Total Time (sec),Total Time (display),Timestamp")
           ++ lines (map lap_row (lap_times s)));
        Information "Save Complete"
          ("Results saved to:" ++ String LF "" ++ file_path_answer env);
        Print ("Save Complete!  Results saved to:" ++ String LF ""
               ++ file_path_answer env ++ String LF "")]) /\
    Forall (fun lap =>
              lap_row lap
              = str_int (number lap) ++ ","
                ++ format_f 0 3 (lap_time lap) ++ ","
                ++ display (lap_time lap) ++ ","
                ++ format_f 0 3 (total_time lap) ++ ","
                ++ display (total_time lap) ++ ","
                ++ strftime_Ymd_HMS (timestamp lap) ++ "."
                ++ fixed_digits 3 (microsecond (timestamp lap) / 1000) /\
              has_decimals 3 (format_f 0 3 (lap_time lap)) /\
              has_decimals 3 (format_f 0 3 (total_time lap)) /\
              format_time (lap_time lap) = Ok (display (lap_time lap)) /\
              format_time (total_time lap) = Ok (display (total_time lap)))
           (lap_times s).
Proof.
  intros env s name total Hlaps Hname Hstrip Hpath Hopen Hwrite Htotal Hall.
  split.
  - unfold save_results.
    destruct (lap_times s) as [|lap r] eqn:El; [contradiction Hlaps; reflexivity|].
    rewrite Hname. cbn [negb orb].
    destruct (strip name) as [|c n'] eqn:Es; [contradiction Hstrip; reflexivity|].
    cbn [String.length Nat.eqb].
    destruct (file_path_answer env) as [|c' p'] eqn:Ep;
      [contradiction Hpath; reflexivity|].
    cbn [String.length Nat.eqb]. rewrite Hopen.
    rewrite <- El in Hall.
    rewrite (write_session_text s (String c n') total (save_date env)
               Htotal Hall).
    rewrite Hwrite, El. rewrite !string_app_assoc. reflexivity.
  - apply Forall_forall. intros lap Hin.
    rewrite Forall_forall in Hall.
    destruct (Hall lap Hin) as ([a Ha] & [b Hb] & Hd).
    split; [reflexivity|].
    split; [apply has_decimals_format_f; exists a; exact Ha|].
    split; [apply has_decimals_format_f; exists b; exact Hb|].
    rewrite (display_ok _ _ Ha), (display_ok _ _ Hb). auto.
Qed.

Lemma sample_session_laps :
  lap_times sample_session
  = [mkLap 3 12.5 12.5 sample_wall; mkLap 7 17.75 30.25 sample_wall].
Proof. vm_compute. reflexivity. Qed.

Lemma sample_session_displayable :
  Forall (fun lap => displayable (lap_time lap) /\
                     displayable (total_time lap) /\
                     valid_datetime (timestamp lap)) (lap_times sample_session).
Proof.
  rewrite sample_session_laps.
  repeat constructor; cbn [lap_time total_time timestamp];
    first [ exists "00:12.50"%string; vm_compute; reflexivity
          | exists "00:17.75"%string; vm_compute; reflexivity
          | exists "00:30.25"%string; vm_compute; reflexivity
          | discriminate ].
Qed.

Lemma exported_text_layout_witness :
  lap_times sample_session <> [] /\
  session_name_answer sample_env = (" morning run "%string, true) /\
  strip " morning run " = "morning run"%string /\
  file_path_answer sample_env = "/tmp/laps.csv"%string /\
  open_error sample_env = None /\
  write_error sample_env = None /\
  format_time (elapsed_time sample_session) = Ok "00:30.25"%string /\
  save_results sample_env sample_session
  = (sample_session,
     [FileWritten "/tmp/laps.csv"
        (line "# Session Information"
         ++ line "Session Name,morning run"
         ++ line "Save Date,2024-01-05 03:05:00"
         ++ line "Total Laps,2"
         ++ line "Total Time,00:30.25"
         ++ line ""
         ++ line ("Lap Number,Lap Time (sec),Lap Time (display),"
                  ++ "Total Time (sec),Total Time (display),Timestamp")
         ++ line "3,12.500,00:12.50,12.500,00:12.50,2024-01-05 03:04:05.006"
         ++ line "7,17.750,00:17.75,30.250,00:30.25,2024-01-05 03:04:05.006");
      Information "Save Complete"
        ("Results saved to:" ++ String LF "" ++ "/tmp/laps.csv");
      Print ("Save Complete!  Results saved to:" ++ String LF ""
             ++ "/tmp/laps.csv" ++ String LF "")]) /\
  map lap_row (lap_times sample_session)
  = ["3,12.500,00:12.50,12.500,00:12.50,2024-01-05 03:04:05.006"%string;
     "7,17.750,00:17.75,30.250,00:30.25,2024-01-05 03:04:05.006"%string].
Proof.
  assert (H1 : lap_times sample_session <> [])
    by (rewrite sample_session_laps; discriminate).
  assert (H2 : session_name_answer sample_env
               = (" morning run "%string, true)) by reflexivity.
  assert (H3 : strip " morning run " <> ""%string)
    by (vm_compute; discriminate).
  assert (H4 : file_path_answer sample_env <> ""%string)
    by (vm_compute; discriminate).
  assert (H5 : open_error sample_env = None) by reflexivity.
  assert (H5' : write_error sample_env = None) by reflexivity.
  assert (H6 : format_time (elapsed_time sample_session)
               = Ok "00:30.25"%string) by (vm_compute; reflexivity).
  split; [exact H1|]. split; [exact H2|].
  split; [vm_compute; reflexivity|]. split; [reflexivity|].
  split; [exact H5|]. split; [exact H5'|]. split; [exact H6|].
  split.
  - rewrite (proj1 (exported_text_layout sample_env sample_session
                      " morning run " "00:30.25" H1 H2 H3 H4 H5 H5' H6
                      sample_session_displayable)).
    vm_compute. reflexivity.
  - vm_compute. reflexivity.
Defined.

(** ** Further properties of the callbacks *)

(** *** What holds between two callbacks *)

Lemma consistent_view_init : consistent_view init.
Proof.
  unfold consistent_view. cbn.
  split; [discriminate|]. repeat split; reflexivity.
Qed.

Lemma add_lap_to_display_view :
  forall lap s,
    lap_text (add_lap_to_display lap s)
    = (lap_text s ++ map display_line (filter shown [lap]))%list /\
    save_button_enabled (add_lap_to_display lap s)
    = save_button_enabled s || shown lap /\
    status_label (add_lap_to_display lap s) = status_label s /\
    time_label_color (add_lap_to_display lap s) = time_label_color s.
Proof.
  intros lap s. unfold add_lap_to_display, shown, display_line, display.
  cbn [filter map].
  destruct (format_time (lap_time lap)) as [a|e] eqn:Ea.
  - destruct (format_time (total_time lap)) as [b|e] eqn:Eb; cbn [filter map].
    + cbn [lap_text save_button_enabled status_label time_label_color].
      rewrite Ea, Eb, orb_true_r. repeat split; reflexivity.
    + rewrite app_nil_r, orb_false_r. repeat split; reflexivity.
  - rewrite app_nil_r, orb_false_r. repeat split; reflexivity.
Qed.

Lemma step_consistent_view :
  forall c e s, consistent_view s -> consistent_view (step c e s).
Proof.
  intros c e s (Hstart & Hstatus & Hcolor & Htext & Hbutton).
  destruct e; cbn [step].
  - unfold toggle_timer, consistent_view, expected_status, expected_color.
    destruct (is_running s) eqn:Hrun; cbn [negb]; cbn.
    + destruct (start_time s) as [t|] eqn:Hs;
        [|exfalso; apply Hstart; reflexivity].
      split; [discriminate|]. repeat split; assumption.
    + split; [discriminate|]. repeat split; assumption.
  - unfold consistent_view, expected_status, expected_color, record_lap in *.
    destruct (is_running s) eqn:Hrun.
    + match goal with
      | |- context [add_lap_to_display ?lap ?s'] =>
          pose proof (add_lap_to_display_view lap s') as (V1 & V2 & V3 & V4);
          pose proof (add_lap_to_display_frame lap s') as F
      end.
      apply timer_state_eq in F. destruct F as (F1 & F2 & F3 & F4).
      rewrite V1, V2, V3, V4, F1, F2, F4.
      cbn [start_time is_running lap_times lap_text save_button_enabled
           status_label time_label_color].
      rewrite filter_app, map_app, existsb_app, Htext, Hbutton.
      cbn [existsb]. rewrite orb_false_r.
      split; [intros _; apply Hstart; reflexivity|].
      repeat split; assumption.
    + rewrite Hrun. split; [discriminate|]. repeat split; assumption.
  - unfold consistent_view. cbn. split; [discriminate|].
    repeat split; reflexivity.
  - unfold consistent_view, expected_status, expected_color, update_timer.
    cbn [start_time is_running lap_times lap_text save_button_enabled
         status_label time_label_color].
    repeat split; assumption.
Qed.

Lemma run_consistent_view :
  forall l s, consistent_view s -> consistent_view (run l s).
Proof.
  induction l as [|[c e] r IH]; intros s H; [exact H|].
  cbn [run]. apply IH, step_consistent_view, H.
Qed.

(** X1: in every state the callbacks can reach from a fresh object, a
    running timer has a start reference: [update_timer] never finds
    [start_time] unset while the timer runs. *)
Theorem running_timer_has_start_reference :
  forall l : list (clock * event),
    is_running (run l init) = true ->
    exists t, start_time (run l init) = Some t.
Proof.
  intros l Hrun.
  destruct (run_consistent_view l init consistent_view_init) as (H & _).
  destruct (start_time (run l init)) as [t|] eqn:E.
  - exists t. reflexivity.
  - exfalso. apply (H Hrun). reflexivity.
Qed.

Lemma running_timer_has_start_reference_witness :
  is_running (run sample_events init) = true /\
  exists t, start_time (run sample_events init) = Some t.
Proof.
  assert (H : is_running (run sample_events init) = true) by reflexivity.
  split; [exact H|].
  exact (running_timer_has_start_reference sample_events H).
Defined.

(** X2: in every reachable state the status text and the colour of the time
    display are those of the timer state: "Running" in blue while running,
    "Stopped" in red after a stop, the invitation to start in grey before
    the first start and after a reset. *)
Theorem status_matches_timer :
  forall l : list (clock * event),
    status_label (run l init) = expected_status (run l init) /\
    time_label_color (run l init) = expected_color (run l init).
Proof.
  intros l.
  destruct (run_consistent_view l init consistent_view_init)
    as (_ & H1 & H2 & _).
  split; assumption.
Qed.

(** X3: in every reachable state the lap display holds one paragraph per
    recorded lap whose durations have a display, in the order of recording,
    and the save button is enabled exactly when there is such a lap; so an
    enabled button means there are laps to save, and when every lap has a
    display the paragraphs are those of all the laps. *)
Theorem lap_display_matches_laps :
  forall l : list (clock * event),
    lap_text (run l init)
    = map display_line (filter shown (lap_times (run l init))) /\
    save_button_enabled (run l init)
    = existsb shown (lap_times (run l init)) /\
    (save_button_enabled (run l init) = true -> lap_times (run l init) <> []) /\
    (forallb shown (lap_times (run l init)) = true ->
     lap_text (run l init) = map display_line (lap_times (run l init))).
Proof.
  intros l.
  destruct (run_consistent_view l init consistent_view_init)
    as (_ & _ & _ & Htext & Hbutton).
  split; [exact Htext|]. split; [exact Hbutton|]. split.
  - rewrite Hbutton. intros H E. rewrite E in H. discriminate H.
  - intros Hall. rewrite Htext. f_equal. clear Htext Hbutton.
    induction (lap_times (run l init)) as [|lap r IH]; [reflexivity|].
    cbn [forallb filter] in *. apply andb_true_iff in Hall.
    destruct Hall as [Hlap Hr]. rewrite Hlap, (IH Hr). reflexivity.
Qed.

Lemma lap_display_matches_laps_witness :
  save_button_enabled (run sample_events init) = true /\
  forallb shown (lap_times (run sample_events init)) = true /\
  lap_times (run sample_events init) <> [] /\
  lap_text (run sample_events init)
  = map display_line (lap_times (run sample_events init)).
Proof.
  assert (H1 : save_button_enabled (run sample_events init) = true)
    by (vm_compute; reflexivity).
  assert (H2 : forallb shown (lap_times (run sample_events init)) = true)
    by (vm_compute; reflexivity).
  split; [exact H1|]. split; [exact H2|].
  split.
  - exact (proj1 (proj2 (proj2 (lap_display_matches_laps sample_events))) H1).
  - exact (proj2 (proj2 (proj2 (lap_display_matches_laps sample_events))) H2).
Defined.

(** *** Laps and elapsed time along a run *)

Lemma step_lap_times_grow :
  forall c e s,
    is_reset e = false ->
    exists more, lap_times (step c e s) = (lap_times s ++ more)%list.
Proof.
  intros c e s He. destruct e; cbn [step]; try discriminate He.
  - exists []. rewrite app_nil_r. unfold toggle_timer.
    destruct (negb (is_running s)); reflexivity.
  - destruct (is_running s) eqn:Hrun.
    + rewrite (record_lap_lap_times _ _ _ Hrun). eexists. reflexivity.
    + exists []. rewrite app_nil_r. unfold record_lap. rewrite Hrun.
      reflexivity.
  - exists []. rewrite app_nil_r. reflexivity.
Qed.

(** X4: lap records are kept: along a run without a reset the records
    present at its start are still there at its end, unchanged and in the
    same positions, with the new ones after them. *)
Theorem laps_kept_until_reset :
  forall (l : list (clock * event)) (s : app),
    existsb (fun ce => is_reset (snd ce)) l = false ->
    exists more, lap_times (run l s) = (lap_times s ++ more)%list.
Proof.
  induction l as [|[c e] r IH]; intros s H.
  - exists []. rewrite app_nil_r. reflexivity.
  - cbn [existsb snd] in H. apply orb_false_iff in H. destruct H as [He Hr].
    cbn [run].
    destruct (IH (step c e s) Hr) as [more2 H2].
    destruct (step_lap_times_grow c e s He) as [more1 H1].
    exists (more1 ++ more2)%list. rewrite H2, H1, app_assoc. reflexivity.
Qed.

Lemma laps_kept_until_reset_witness :
  existsb (fun ce => is_reset (snd ce)) lap_after_refresh = false /\
  exists more,
    lap_times (run lap_after_refresh sample_session)
    = (lap_times sample_session ++ more)%list.
Proof.
  assert (H : existsb (fun ce => is_reset (snd ce)) lap_after_refresh = false)
    by reflexivity.
  split; [exact H|].
  exact (laps_kept_until_reset lap_after_refresh sample_session H).
Defined.

(** X5: the stored elapsed time moves on a refresh or a reset only: a run
    of toggles and laps, however long it lasts on the clock, ends with the
    elapsed time it started with. *)
Theorem elapsed_moves_only_on_refresh :
  forall (l : list (clock * event)) (s : app),
    forallb (fun ce => is_key (snd ce)) l = true ->
    elapsed_time (run l s) = elapsed_time s.
Proof.
  induction l as [|[c e] r IH]; intros s H; [reflexivity|].
  cbn [forallb snd] in H. apply andb_true_iff in H. destruct H as [He Hr].
  cbn [run]. rewrite (IH _ Hr).
  destruct e; try discriminate He; cbn [step].
  - unfold toggle_timer. destruct (negb (is_running s)); reflexivity.
  - unfold record_lap. destruct (is_running s); [|reflexivity].
    match goal with
    | |- elapsed_time (add_lap_to_display ?lap ?s') = _ =>
        pose proof (add_lap_to_display_frame lap s') as F
    end.
    apply timer_state_eq in F. destruct F as (_ & _ & F & _).
    rewrite F. reflexivity.
Qed.

Lemma elapsed_moves_only_on_refresh_witness :
  forallb (fun ce => is_key (snd ce)) lap_without_refresh = true /\
  elapsed_time (run lap_without_refresh init) = elapsed_time init.
Proof.
  assert (H : forallb (fun ce => is_key (snd ce)) lap_without_refresh = true)
    by reflexivity.
  split; [exact H|].
  exact (elapsed_moves_only_on_refresh lap_without_refresh init H).
Defined.

(** *** After a reset *)

Lemma step_same_but_time_label :
  forall c e s1 s2,
    same_but_time_label s1 s2 ->
    same_but_time_label (step c e s1) (step c e s2).
Proof.
  intros c e s1 s2 (Ht & Hc & Hst & Htx & Hb).
  split; [apply step_timer_state, Ht|].
  apply timer_state_eq in Ht. destruct Ht as (T1 & T2 & T3 & T4).
  destruct e; cbn [step].
  - unfold toggle_timer. rewrite T2.
    destruct (negb (is_running s2)); cbn; repeat split; assumption.
  - unfold record_lap. rewrite T2, T3, T4.
    destruct (is_running s2); [|repeat split; assumption].
    repeat match goal with
    | |- context [add_lap_to_display ?lap ?a] =>
        lazymatch goal with
        | H : lap_text (add_lap_to_display lap a) = _ |- _ => fail
        | _ => pose proof (add_lap_to_display_view lap a) as (? & ? & ? & ?)
        end
    end.
    repeat match goal with
    | H : _ (add_lap_to_display _ _) = _ |- _ => rewrite H; clear H
    end.
    cbn [lap_text save_button_enabled status_label time_label_color].
    rewrite Hc, Hst, Htx, Hb. repeat split; reflexivity.
  - cbn. repeat split; reflexivity.
  - unfold update_timer. cbn. repeat split; assumption.
Qed.

(** X6: a reset starts over: after [reset_timer], any run of callbacks leaves
    the timer state, the status, the lap display and the save button as it
    leaves them on a fresh object; the text of the time display alone may
    differ. *)
Theorem run_after_reset_is_fresh :
  forall (l : list (clock * event)) (s : app),
    same_but_time_label (run l (reset_timer s)) (run l init).
Proof.
  intros l s.
  assert (H : same_but_time_label (reset_timer s) init)
    by (repeat split; reflexivity).
  revert H. generalize (reset_timer s) init.
  induction l as [|[c e] r IH]; intros s1 s2 H; [exact H|].
  cbn [run]. apply IH, step_same_but_time_label, H.
Qed.

(** X7: [reset_timer] does not touch the text of the time display, which
    goes back to "00:00.00" at the next refresh. *)
Theorem time_display_after_reset :
  forall (now : float) (s : app),
    time_label (reset_timer s) = time_label s /\
    time_label (update_timer now (reset_timer s)) = "00:00.00"%string.
Proof.
  intros now s. split; [reflexivity|].
  unfold update_timer, reset_timer.
  cbn [start_time is_running elapsed_time time_label].
  replace (format_time 0) with (@Ok string "00:00.00")
    by (vm_compute; reflexivity).
  reflexivity.
Qed.

(** *** A start reference of zero *)

Lemma update_timer_zero_reference :
  forall now s,
    (forall t, start_time s = Some t -> float_bool t = false) ->
    elapsed_time (update_timer now s) = elapsed_time s /\
    start_time (update_timer now s) = start_time s.
Proof.
  intros now s H. unfold update_timer. cbn.
  destruct (start_time s) as [t|]; [|auto].
  rewrite (H t eq_refl), andb_false_r. auto.
Qed.

(** X8: [update_timer] takes a start reference of zero for an unset one.
    When the timer is started at a clock reading equal to the elapsed time
    (a fresh timer started at reading 0), it is running but no refresh ever
    moves the elapsed time. *)
Theorem zero_start_reference_stalls :
  forall (now : float) (s : app) (nows : list float),
    is_running s = false ->
    float_bool (now - elapsed_time s) = false ->
    is_running (toggle_timer now s) = true /\
    elapsed_time (run (ticks nows) (toggle_timer now s)) = elapsed_time s.
Proof.
  intros now s nows Hrun Hzero. split.
  - unfold toggle_timer. rewrite Hrun. reflexivity.
  - assert (H : forall t, start_time (toggle_timer now s) = Some t ->
                          float_bool t = false).
    { unfold toggle_timer. rewrite Hrun. cbn. intros t E.
      injection E as <-. exact Hzero. }
    assert (E : elapsed_time (toggle_timer now s) = elapsed_time s).
    { unfold toggle_timer. rewrite Hrun. reflexivity. }
    rewrite <- E. revert H. generalize (toggle_timer now s).
    induction nows as [|n r IH]; intros s' H; [reflexivity|].
    cbn [ticks map run step time_time]. fold (ticks r).
    destruct (update_timer_zero_reference n s' H) as [He Hs].
    rewrite IH; [exact He|]. rewrite Hs. exact H.
Qed.

Lemma zero_start_reference_stalls_witness :
  is_running init = false /\
  float_bool (0 - elapsed_time init) = false /\
  is_running (toggle_timer 0 init) = true /\
  elapsed_time (run (ticks [1; 60; 3600]) (toggle_timer 0 init))
  = elapsed_time init.
Proof.
  assert (H1 : is_running init = false) by reflexivity.
  assert (H2 : float_bool (0 - elapsed_time init) = false) by reflexivity.
  split; [exact H1|]. split; [exact H2|].
  exact (zero_start_reference_stalls 0 init [1; 60; 3600] H1 H2).
Defined.

(** *** Lap times as differences *)

Lemma lap_differences_snoc :
  forall laps lap,
    lap_differences laps ->
    (laps = [] -> lap_time lap = total_time lap) ->
    (forall a,
        nth_error laps (List.length laps - 1) = Some a ->
        lap_time lap = total_time lap - total_time a) ->
    lap_differences (laps ++ [lap])%list.
Proof.
  intros laps lap [Hfirst Hnext] Hempty Hlast. split.
  - intros a H. destruct laps as [|x r].
    + cbn in H. injection H as <-. apply Hempty. reflexivity.
    + apply Hfirst. exact H.
  - intros i a b Ha Hb.
    destruct (Nat.lt_ge_cases (S i) (List.length laps)) as [Hlt|Hge].
    + rewrite nth_error_app1 in Ha by lia.
      rewrite nth_error_app1 in Hb by lia.
      exact (Hnext i a b Ha Hb).
    + rewrite nth_error_app2 in Hb by lia.
      destruct (S i - List.length laps)%nat as [|k] eqn:Hk.
      * cbn in Hb. injection Hb as <-.
        rewrite nth_error_app1 in Ha by lia.
        apply Hlast. replace (List.length laps - 1)%nat with i by lia.
        exact Ha.
      * destruct k; discriminate Hb.
Qed.

(** X9: whatever the clock does, also when it is set back between two
    laps, the records of every reachable state are differences: the first
    lap time is the first total, and every later lap time is the float
    difference between its total and the total before it. *)
Theorem lap_times_are_differences :
  forall l : list (clock * event), lap_differences (lap_times (run l init)).
Proof.
  intros l.
  assert (H : lap_differences (lap_times init)).
  { split; [intros a H; discriminate H|].
    intros i a b H. destruct i; discriminate H. }
  revert H. generalize init.
  induction l as [|[c e] r IH]; intros s H; [exact H|].
  cbn [run]. apply IH.
  destruct e; cbn [step].
  - unfold toggle_timer. destruct (negb (is_running s)); exact H.
  - destruct (is_running s) eqn:Hrun.
    + rewrite (record_lap_lap_times _ _ _ Hrun).
      apply lap_differences_snoc; [exact H| |]; cbn.
      * intros ->. reflexivity.
      * intros a Ha.
        destruct (lap_times s) as [|x r'] eqn:Hl; [discriminate Ha|].
        rewrite (nth_error_last _ (x :: r') (mkLap 0 0 0 (datetime_now c))
                   a Ha) by discriminate.
        reflexivity.
    + unfold record_lap. rewrite Hrun. exact H.
  - split; [intros a Ha; discriminate Ha|].
    intros i a b Ha. destruct i; discriminate Ha.
  - exact H.
Qed.

(** *** Outcomes of saving *)

Lemma lstrip_all_space_bounded :
  forall (n : nat) (s : string),
    (String.length s <= n)%nat -> all_space s = true -> lstrip s = ""%string.
Proof.
  induction n as [|n IH]; intros s Hlen H.
  - destruct s; [reflexivity|]. cbn in Hlen. lia.
  - destruct s as [|c1 r1]; [reflexivity|].
    cbn [all_space lstrip] in *. cbn [String.length] in Hlen.
    destruct (is_space c1).
    + apply IH; [lia|exact H].
    + destruct r1 as [|c2 r2]; [discriminate H|].
      cbn [String.length] in Hlen.
      destruct (is_space2 c1 c2).
      * apply IH; [lia|exact H].
      * destruct r2 as [|c3 r3]; [discriminate H|].
        cbn [String.length] in Hlen.
        apply andb_true_iff in H. destruct H as [H3 Hr]. rewrite H3.
        apply IH; [lia|exact Hr].
Qed.

Lemma lstrip_all_space :
  forall s, all_space s = true -> lstrip s = ""%string.
Proof.
  intros s. apply (lstrip_all_space_bounded (String.length s)). lia.
Qed.

Lemma strip_all_space :
  forall s, all_space s = true -> strip s = ""%string.
Proof.
  intros s H. unfold strip. rewrite (lstrip_all_space s H). reflexivity.
Qed.

(** X10: a save that is given up leaves no trace.  When the name dialog is
    cancelled, or answered with nothing but whitespace, or when the file
    dialog returns no path, [save_results] writes no file and shows no
    message, not even that the save did not happen. *)
Theorem save_given_up_is_silent :
  forall (env : save_env) (s : app),
    lap_times s <> [] ->
    snd (session_name_answer env) = false \/
    all_space (fst (session_name_answer env)) = true \/
    file_path_answer env = ""%string ->
    save_results env s = (s, []).
Proof.
  intros env s Hlaps H. unfold save_results.
  destruct (lap_times s) as [|lap r]; [contradiction Hlaps; reflexivity|].
  destruct (session_name_answer env) as [name ok]. cbn [fst snd] in H.
  destruct ok; cbn [negb orb].
  - destruct H as [H|[H|H]]; [discriminate H| |].
    + rewrite (strip_all_space name H). reflexivity.
    + destruct (String.length (strip name) =? 0)%nat; [reflexivity|].
      rewrite H. reflexivity.
  - reflexivity.
Qed.

Lemma save_given_up_is_silent_witness :
  lap_times sample_session <> [] /\
  all_space (fst (session_name_answer blank_name_env)) = true /\
  save_results blank_name_env sample_session = (sample_session, []).
Proof.
  assert (H1 : lap_times sample_session <> [])
    by (rewrite sample_session_laps; discriminate).
  assert (H2 : all_space (fst (session_name_answer blank_name_env)) = true)
    by reflexivity.
  split; [exact H1|]. split; [exact H2|].
  exact (save_given_up_is_silent blank_name_env sample_session H1
           (or_intror (or_introl H2))).
Defined.

Lemma write_lap_cases :
  forall (lap : lap_data) (buf : string),
    (shown lap = true /\
     exists row, write_lap lap buf = (Ok tt, buf ++ row)) \/
    (shown lap = false /\
     exists e, write_lap lap buf = (Raise e, buf)).
Proof.
  intros lap buf. unfold write_lap, wbind, wlift, writerow, shown.
  destruct (format_time (lap_time lap)) as [a|e].
  - destruct (format_time (total_time lap)) as [b|e].
    + left. split; [reflexivity|]. eexists. reflexivity.
    + right. split; [reflexivity|]. exists e. reflexivity.
  - right. split; [reflexivity|]. exists e. reflexivity.
Qed.

(** The loop only appends, and it completes exactly when every lap has a
    display. *)
Lemma for_each_write_lap_cases :
  forall (laps : list lap_data) (buf : string),
    exists rest,
      snd (for_each laps write_lap buf) = buf ++ rest /\
      (fst (for_each laps write_lap buf) = Ok tt <->
       forallb shown laps = true).
Proof.
  induction laps as [|lap r IH]; intros buf.
  - exists ""%string. cbn. rewrite string_app_nil_r. tauto.
  - cbn [for_each forallb]. unfold wbind.
    destruct (write_lap_cases lap buf) as [[Hs [row Hw]]|[Hs [e Hw]]];
      rewrite Hw, Hs.
    + destruct (IH (buf ++ row)) as (rest & Hsnd & Hfst).
      exists (row ++ rest). rewrite Hsnd, string_app_assoc.
      split; [reflexivity|]. cbn [andb]. exact Hfst.
    + exists ""%string. cbn. rewrite string_app_nil_r.
      split; [reflexivity|]. split; discriminate.
Qed.

Lemma header_rows_written :
  forall (s : app) (name : string) (date : datetime),
    ((("" ++ csv_record [CStr "# Session Information"])
      ++ csv_record [CStr "Session Name"; CStr name])
     ++ csv_record [CStr "Save Date"; CStr (strftime_Ymd_HMS date)])
    ++ csv_record [CStr "Total Laps";
                   CInt (Z.of_nat (List.length (lap_times s)))]
    = header_rows s name date.
Proof.
  intros s name date. unfold header_rows.
  assert (R3 : csv_record [CStr "Save Date"; CStr (strftime_Ymd_HMS date)]
               = line ("Save Date," ++ strftime_Ymd_HMS date)).
  { rewrite csv_record_plain; [reflexivity| |intros _; discriminate].
    repeat constructor. apply plain_strftime_Ymd_HMS. }
  assert (R4 : csv_record
                 [CStr "Total Laps";
                  CInt (Z.of_nat (List.length (lap_times s)))]
               = line ("Total Laps,"
                       ++ decimal (Z.of_nat (List.length (lap_times s))))).
  { rewrite csv_record_plain; [| |intros _; discriminate].
    - cbn [map cell_text join]. unfold str_int.
      destruct (Z.ltb_spec (Z.of_nat (List.length (lap_times s))) 0);
        [lia|].
      rewrite Z.abs_eq by lia. reflexivity.
    - repeat constructor. apply plain_str_int. }
  rewrite R3, R4.
  change (csv_record [CStr "# Session Information"])
    with (line "# Session Information").
  change (csv_record [CStr "Session Name"; CStr name])
    with (line ("Session Name," ++ csv_field name)).
  rewrite !string_app_assoc. reflexivity.
Qed.

(** The body of the [with] block writes the four header rows whatever
    happens next, and completes exactly when the elapsed time and every lap
    have a display. *)
Lemma write_session_cases :
  forall (s : app) (name : string) (date : datetime),
    exists rest,
      snd (write_session s name date "") = header_rows s name date ++ rest /\
      (fst (write_session s name date "") = Ok tt <->
       displayable (elapsed_time s) /\ forallb shown (lap_times s) = true).
Proof.
  intros s name date. unfold write_session, wbind, wlift, writerow.
  rewrite header_rows_written. unfold displayable.
  destruct (format_time (elapsed_time s)) as [total|e].
  - match goal with
    | |- context [for_each ?laps write_lap ?buf] =>
        destruct (for_each_write_lap_cases laps buf) as (rest & Hsnd & Hfst)
    end.
    eexists. split.
    + rewrite Hsnd, !string_app_assoc. reflexivity.
    + rewrite Hfst.
      split; [intros H; split; [exists total; reflexivity|exact H]|tauto].
  - exists ""%string. cbn [fst snd]. rewrite string_app_nil_r.
    split; [reflexivity|].
    split; [discriminate|]. intros [[str H] _]. discriminate H.
Qed.

(** X11: a file is written only for a session with laps, at the path the
    file dialog returned, after the name dialog was accepted with a name that
    is not empty once stripped, and after the file was opened.  Unless the
    operating system failed while writing, whatever is written, also when
    the save stops half way at a duration without display, begins with the
    marker line and the key of the session name; for a name without comma,
    quote and line break the first four lines are the marker, the name, the
    save date and the number of laps. *)
Theorem written_file_begins_with_header :
  forall (env : save_env) (s : app) (path contents : string),
    In (FileWritten path contents) (snd (save_results env s)) ->
    lap_times s <> [] /\
    snd (session_name_answer env) = true /\
    strip (fst (session_name_answer env)) <> ""%string /\
    path = file_path_answer env /\ path <> ""%string /\
    open_error env = None /\
    (write_error env = None ->
     (exists rest,
         contents
         = line "# Session Information" ++ "Session Name," ++ rest) /\
     (plain (strip (fst (session_name_answer env))) ->
      exists rest,
        contents
        = line "# Session Information"
          ++ line ("Session Name," ++ strip (fst (session_name_answer env)))
          ++ line ("Save Date," ++ strftime_Ymd_HMS (save_date env))
          ++ line ("Total Laps,"
                   ++ decimal (Z.of_nat (List.length (lap_times s))))
          ++ rest)).
Proof.
  intros env s path contents. unfold save_results.
  destruct (lap_times s) as [|lap r] eqn:El.
  { cbn. intros [H|[]]. discriminate H. }
  destruct (session_name_answer env) as [name ok]. cbn [fst snd].
  destruct ok; cbn [negb orb]; [|intros []].
  destruct (strip name) as [|c0 n0] eqn:Es; [intros []|].
  cbn [String.length Nat.eqb].
  destruct (file_path_answer env) as [|c p] eqn:Ep; [intros []|].
  cbn [String.length Nat.eqb].
  destruct (open_error env) as [e|] eqn:Eo.
  { cbn. intros [H|[]]. discriminate H. }
  destruct (write_session_cases s (String c0 n0) (save_date env))
    as (rest & Hsnd & _).
  assert (Hhead :
            forall written,
              written = header_rows s (String c0 n0) (save_date env) ++ rest ->
              (exists rest',
                  written
                  = line "# Session Information" ++ "Session Name," ++ rest') /\
              (plain (String c0 n0) ->
               exists rest',
                 written
                 = line "# Session Information"
                   ++ line ("Session Name," ++ String c0 n0)
                   ++ line ("Save Date," ++ strftime_Ymd_HMS (save_date env))
                   ++ line ("Total Laps,"
                            ++ decimal (Z.of_nat (List.length (lap :: r))))
                   ++ rest')).
  { intros written ->. unfold header_rows. rewrite El. split.
    - eexists. unfold line at 2. rewrite !string_app_assoc. reflexivity.
    - intros Hplain. rewrite (csv_field_plain _ Hplain).
      exists rest. rewrite !string_app_assoc. reflexivity. }
  destruct (write_session s (String c0 n0) (save_date env) "")
    as [[u|e] written]; cbn [snd] in Hsnd;
    destruct (write_error env) as [[flushed e']|] eqn:Ew.
  - intros [H|[H|[]]]; try discriminate H. injection H as <- <-.
    repeat (split; [first [discriminate | reflexivity]|]). discriminate.
  - intros [H|[H|[H|[]]]]; try discriminate H. injection H as <- <-.
    repeat (split; [first [discriminate | reflexivity]|]).
    intros _. apply Hhead, Hsnd.
  - intros [H|[H|[]]]; try discriminate H. injection H as <- <-.
    repeat (split; [first [discriminate | reflexivity]|]). discriminate.
  - intros [H|[H|[]]]; try discriminate H. injection H as <- <-.
    repeat (split; [first [discriminate | reflexivity]|]).
    intros _. apply Hhead, Hsnd.
Qed.

Lemma written_file_begins_with_header_witness :
  exists contents,
    In (FileWritten "/tmp/laps.csv" contents)
       (snd (save_results sample_env sample_session)) /\
    write_error sample_env = None /\
    strip (fst (session_name_answer sample_env)) = "morning run"%string /\
    exists rest,
      contents
      = line "# Session Information" ++ "Session Name," ++ rest.
Proof.
  pose (contents :=
          match snd (save_results sample_env sample_session) with
          | FileWritten _ c :: _ => c
          | _ => ""%string
          end).
  assert (H : In (FileWritten "/tmp/laps.csv" contents)
                 (snd (save_results sample_env sample_session)))
    by (vm_compute; left; reflexivity).
  exists contents. split; [exact H|].
  split; [reflexivity|]. split; [vm_compute; reflexivity|].
  exact (proj1 (proj2 (proj2 (proj2 (proj2 (proj2 (proj2
           (written_file_begins_with_header sample_env sample_session
              "/tmp/laps.csv" contents H)))))) eq_refl)).
Defined.



(** *** Refreshing before every key *)

Lemma without_ticks_refresh_each :
  forall l : list (clock * event),
    without_ticks (refresh_each l) = without_ticks l.
Proof.
  induction l as [|[c e] r IH]; [reflexivity|].
  cbn [refresh_each without_ticks filter snd is_tick negb].
  fold (without_ticks (refresh_each r)). fold (without_ticks r).
  rewrite IH. reflexivity.
Qed.

(** X14: a refresh at the clock reading of each toggle and lap, just before
    it, is enough for a run to be up to date: putting one before every event
    of a run changes none of its other events and gives a run in which every
    toggle and lap finds the elapsed time a refresh would store. *)
Theorem refresh_before_each_event_is_up_to_date :
  forall (l : list (clock * event)) (s : app),
    without_ticks (refresh_each l) = without_ticks l /\
    up_to_date (refresh_each l) s.
Proof.
  intros l s. split; [apply without_ticks_refresh_each|].
  revert s. induction l as [|[c e] r IH]; intros s; [exact I|].
  cbn [refresh_each up_to_date]. split; [exact I|].
  split; [|apply IH].
  destruct e; try exact I; cbn [step]; apply update_timer_idempotent.
Qed.
